(** * Second Brain: the record store, the inbox classifier and the
      conversion pipeline of [app.js]

    The development embeds the data-handling functions of [src/app.js]
    (the DOM rendering is kept only as a trace of effects) and proves the
    properties the specification states about them.

    Conventions.
    - A JavaScript string is the sequence of its UTF-16 code units.  The
      model covers the code units below 256, one [ascii] per unit, so
      [String.length] is the [length] property and positions agree with
      JavaScript's.
    - The clock, the random generator, [JSON.parse], [Date] parsing and the
      local time zone belong to the platform: they are inputs (an [Env]
      record, or the variables of a Section).
    - Functions that call [saveData], [showToast] or a render function
      return the list of these calls next to the new state. *)

From Stdlib Require Import ZArith NArith Ascii String List Bool Lia.
From stdpp Require Import base option list gmap strings pretty.

Local Open Scope string_scope.
Local Open Scope list_scope.

(** ** JavaScript string primitives *)

Module Js.

(** Code units with an upper-case mapping in the Latin-1 range:
    [A-Z], and [À-Þ] without the multiplication sign. *)
Definition is_upper (c : ascii) : bool :=
  let n := N_of_ascii c in
  ((65 <=? n) && (n <=? 90) || (192 <=? n) && (n <=? 222) && negb (n =? 215))%N.

Definition lower_unit (c : ascii) : ascii :=
  if is_upper c then ascii_of_N (N_of_ascii c + 32) else c.

(** [s.toLowerCase()] *)
Fixpoint toLowerCase (s : string) : string :=
  match s with
  | EmptyString => EmptyString
  | String c s' => String (lower_unit c) (toLowerCase s')
  end.

(** [s.includes(k)]: [k] occurs in [s] at some position. *)
Fixpoint includes (s k : string) : bool :=
  String.prefix k s ||
  match s with
  | EmptyString => false
  | String _ s' => includes s' k
  end.

(** [s.substring(a, b)]: the units from [min a b] up to [max a b],
    both clamped to the length. *)
Definition substring (s : string) (a b : nat) : string :=
  String.substring (Nat.min a b) (Nat.max a b - Nat.min a b) s.

(** [s.substr(a)] for a non-negative [a]. *)
Fixpoint substr (s : string) (a : nat) : string :=
  match a, s with
  | O, _ => s
  | S _, EmptyString => EmptyString
  | S a', String _ s' => substr s' a'
  end.

(** White space and line terminators below 256, as [trim] sees them. *)
Definition is_space (c : ascii) : bool :=
  let n := N_of_ascii c in
  ((9 <=? n) && (n <=? 13) || (n =? 32) || (n =? 160))%N.

Fixpoint trimStart (s : string) : string :=
  match s with
  | EmptyString => EmptyString
  | String c s' => if is_space c then trimStart s' else s
  end.

Fixpoint trimEnd (s : string) : string :=
  match s with
  | EmptyString => EmptyString
  | String c s' =>
      match trimEnd s' with
      | EmptyString => if is_space c then EmptyString else String c EmptyString
      | r => String c r
      end
  end.

(** [s.trim()] *)
Definition trim (s : string) : string := trimEnd (trimStart s).

(** Truthiness of a string: every string but the empty one. *)
Definition truthy (s : string) : bool := negb (String.eqb s "").

(** The digit of [n.toString(36)] for [d < 36]. *)
Definition digit36 (d : N) : ascii :=
  if (d <? 10)%N then ascii_of_N (48 + d) else ascii_of_N (87 + d).

Fixpoint toString36_aux (fuel : nat) (n : N) (acc : string) : string :=
  match fuel with
  | O => acc
  | S fuel' =>
      let acc' := String (digit36 (n mod 36)) acc in
      if (n / 36 =? 0)%N then acc' else toString36_aux fuel' (n / 36) acc'
  end.

(** [n.toString(36)] for a non-negative integer [n]; the fuel, one more
    than the number of bits of [n], is more than the number of digits. *)
Definition toString36 (n : N) : string :=
  toString36_aux (S (N.to_nat (N.size n))) n EmptyString.

(** The value of a base-36 digit, and [parseInt(s, 36)] on a string of
    such digits. *)
Definition value36 (c : ascii) : N :=
  let n := N_of_ascii c in
  if (n <? 58)%N then (n - 48)%N else (n - 87)%N.

Fixpoint parseInt36_aux (s : string) (acc : N) : N :=
  match s with
  | EmptyString => acc
  | String c s' => parseInt36_aux s' (acc * 36 + value36 c)%N
  end.

Definition parseInt36 (s : string) : N := parseInt36_aux s 0.

End Js.

(** ** The platform, as seen by one call of an operation *)

Record Env := mkEnv {
  clock : N;          (* Date.now() *)
  random36 : string;  (* Math.random().toString(36) *)
  isoNow : string     (* new Date().toISOString() *)
}.

(** [generateId()] *)
Definition generateId (e : Env) : string :=
  Js.toString36 (clock e) ++ Js.substr (random36 e) 2.

(** ** Records of the store *)

Module InboxItem.
Record t := mk {
  id : string;
  text : string;
  type : string;
  status : string;
  createdAt : string;
  aiSummary : string
}.
Definition set_type (v : string) (i : t) : t :=
  mk (id i) (text i) v (status i) (createdAt i) (aiSummary i).
Definition set_aiSummary (v : string) (i : t) : t :=
  mk (id i) (text i) (type i) (status i) (createdAt i) v.
End InboxItem.

(** A property that an object literal does not mention is [Absent]; it is
    [Null] after an assignment of [null]. *)
Inductive optional (A : Type) : Type :=
  | Absent
  | Null
  | Present (a : A).
Arguments Absent {A}.
Arguments Null {A}.
Arguments Present {A} a.

Module Task.
Record t := mk {
  id : string;
  text : string;
  completed : bool;
  priority : string;
  dueDate : option string;      (* [None] is [null] *)
  project : option string;      (* [None] is [null] *)
  context : list string;
  createdAt : string;
  completedAt : optional string
}.
Definition set_text (v : string) (k : t) : t :=
  mk (id k) v (completed k) (priority k) (dueDate k) (project k)
     (context k) (createdAt k) (completedAt k).
Definition set_completed (v : bool) (k : t) : t :=
  mk (id k) (text k) v (priority k) (dueDate k) (project k)
     (context k) (createdAt k) (completedAt k).
Definition set_completedAt (v : optional string) (k : t) : t :=
  mk (id k) (text k) (completed k) (priority k) (dueDate k) (project k)
     (context k) (createdAt k) v.
End Task.

Module Idea.
Record t := mk {
  id : string;
  text : string;
  category : string;
  potential : N;
  status : string;
  createdAt : string
}.
End Idea.

Module Project.
Record t := mk {
  id : string;
  name : string;
  description : string;
  status : string;
  progress : N;
  tasks : N;
  createdAt : string
}.
End Project.

Module Contact.
Record t := mk {
  id : string;
  name : string;
  company : string;
  relationship : string;
  email : string;
  phone : string;
  lastContact : option string;
  nextFollowUp : option string;
  notes : string;
  createdAt : string
}.
End Contact.

Record Settings := mkSettings {
  darkMode : bool;
  apiKey : string
}.

(** The global [state]. *)
Record State := mkState {
  inbox : list InboxItem.t;
  projects : list Project.t;
  tasks : list Task.t;
  ideas : list Idea.t;
  contacts : list Contact.t;
  settings : Settings
}.

Definition set_inbox (v : list InboxItem.t) (s : State) : State :=
  mkState v (projects s) (tasks s) (ideas s) (contacts s) (settings s).
Definition set_tasks (v : list Task.t) (s : State) : State :=
  mkState (inbox s) (projects s) v (ideas s) (contacts s) (settings s).
Definition set_ideas (v : list Idea.t) (s : State) : State :=
  mkState (inbox s) (projects s) (tasks s) v (contacts s) (settings s).

(** ** Effects *)

Inductive Message :=
  | Captured            (* 'Captured!' *)
  | ConvertedToTask     (* 'Converted to task!' *)
  | ConvertedToIdea     (* 'Converted to idea!' *)
  | Deleted             (* 'Deleted' *)
  | TaskAdded           (* 'Task added!' *)
  | TaskCompleted       (* 'Task completed!' and an emoji *)
  | TaskDeleted         (* 'Task deleted' *)
  | TaskUpdated         (* 'Task updated!' *)
  | DataImported        (* 'Data imported!' *)
  | InvalidFileFormat.  (* 'Invalid file format' *)

Inductive Kind := success | error | info.

Inductive Effect (S : Type) :=
  | SaveData (data : S)
  | RenderInbox
  | RenderTasks
  | RenderDashboard
  | UpdateInboxBadge
  | NavigateTo (page : string)
  | ShowToast (m : Message) (k : Kind)
  | SetTimeoutClassify (id : string).
Arguments SaveData {S} data.
Arguments RenderInbox {S}.
Arguments RenderTasks {S}.
Arguments RenderDashboard {S}.
Arguments UpdateInboxBadge {S}.
Arguments NavigateTo {S} page.
Arguments ShowToast {S} m k.
Arguments SetTimeoutClassify {S} id.

(** ** Array helpers *)

(** The element that [arr.find(p)] returns is an alias of the array slot:
    an assignment to one of its properties updates the first slot that
    satisfies [p]. *)
Fixpoint update_first {A} (p : A -> bool) (f : A -> A) (l : list A) : list A :=
  match l with
  | [] => []
  | x :: l' => if p x then f x :: l' else x :: update_first p f l'
  end.

(** ** The inbox *)

Definition has_id (id : string) (i : InboxItem.t) : bool :=
  String.eqb (InboxItem.id i) id.

(** The number of inbox items that carry [id]. *)
Definition occurrences (id : string) (l : list InboxItem.t) : nat :=
  length (List.filter (has_id id) l).

(** The body of [classifyInboxItem] once the item is found. *)
Definition classify (item : InboxItem.t) : InboxItem.t :=
  let text := Js.toLowerCase (InboxItem.text item) in
  let item1 :=
    if Js.includes text "task:" || Js.includes text "todo:" ||
       Js.includes text "need to" || Js.includes text "must" ||
       Js.includes text "should"
    then InboxItem.set_type "task" item
    else if Js.includes text "idea:" || Js.includes text "what if" ||
            Js.includes text "maybe" || Js.includes text "could"
    then InboxItem.set_type "idea" item
    else if Js.includes text "http://" || Js.includes text "https://" ||
            Js.includes text ".com" || Js.includes text ".org"
    then InboxItem.set_type "link" item
    else item in
  if (50 <? String.length (InboxItem.text item1))%nat
  then InboxItem.set_aiSummary
         (Js.substring (InboxItem.text item1) 0 47 ++ "...") item1
  else item1.

(** The keyword groups of [classify], in the order of its tests. *)
Definition task_markers : list string :=
  ["task:"; "todo:"; "need to"; "must"; "should"].
Definition idea_markers : list string :=
  ["idea:"; "what if"; "maybe"; "could"].
Definition link_markers : list string :=
  ["http://"; "https://"; ".com"; ".org"].

(** [k] is a substring of [s]. *)
Definition contains (s k : string) : Prop :=
  exists pre suf : string, s = (pre ++ k ++ suf)%string.

(** The lowercased text contains one of the markers. *)
Definition matches_group (text : string) (markers : list string) : Prop :=
  exists k : string, In k markers /\ contains (Js.toLowerCase text) k.

(** The type that [classify] leaves in the item, by keyword group. *)
Definition classified_type (item : InboxItem.t) : string :=
  let text := Js.toLowerCase (InboxItem.text item) in
  if existsb (Js.includes text) task_markers then "task"
  else if existsb (Js.includes text) idea_markers then "idea"
  else if existsb (Js.includes text) link_markers then "link"
  else InboxItem.type item.

Definition classifyInboxItem (currentPage : string) (id : string) (s : State)
  : State * list (Effect State) :=
  match List.find (has_id id) (inbox s) with
  | None => (s, [])
  | Some _ =>
      let s' := set_inbox (update_first (has_id id) classify (inbox s)) s in
      (s', SaveData s' ::
           if String.eqb currentPage "inbox" then [RenderInbox] else [])
  end.

(** [addToInbox(text = null, type = 'thought')]; an argument that the
    caller leaves out is [None].  [input] is the value of the capture
    field when the element exists. *)
Definition addToInbox (e : Env) (currentPage : string)
    (text : option string) (type : option string) (input : option string)
    (s : State)
  : State * list (Effect State) :=
  let type := match type with Some t => t | None => "thought" end in
  let fromInput := match input with Some v => Js.trim v | None => "" end in
  let itemText :=
    match text with
    | Some t => if Js.truthy t then t else fromInput
    | None => fromInput
    end in
  if negb (Js.truthy itemText) then (s, [])
  else
    let item := InboxItem.mk (generateId e) itemText type "new" (isoNow e) "" in
    let s' := set_inbox (inbox s ++ [item]) s in
    (s', SaveData s' ::
         (if String.eqb currentPage "inbox" then [RenderInbox]
          else if String.eqb currentPage "dashboard" then [RenderDashboard]
          else []) ++
         [UpdateInboxBadge; ShowToast Captured success;
          SetTimeoutClassify (InboxItem.id item)]).

(** [deleteInboxItem(id)] *)
Definition deleteInboxItem (id : string) (s : State)
  : State * list (Effect State) :=
  let s' := set_inbox (List.filter (fun i => negb (has_id id i)) (inbox s)) s in
  (s', [SaveData s'; RenderInbox; UpdateInboxBadge; ShowToast Deleted info]).

(** ** The conversion pipeline *)

(** The object literal that [convertInboxToTask], [addQuickTask] and
    [showAddTaskModal] build: it has no [completedAt] property. *)
Definition newTask (e : Env) (text : string) : Task.t :=
  Task.mk (generateId e) text false "medium" None None [] (isoNow e) Absent.

(** The object literal of [convertInboxToIdea]. *)
Definition newIdea (e : Env) (text : string) : Idea.t :=
  Idea.mk (generateId e) text "general" 2 "new" (isoNow e).

Definition convertInboxToTask (e : Env) (id : string) (s : State)
  : State * list (Effect State) :=
  match List.find (has_id id) (inbox s) with
  | None => (s, [])
  | Some item =>
      let task := newTask e (InboxItem.text item) in
      let s1 := set_tasks (tasks s ++ [task]) s in
      let s2 :=
        set_inbox (List.filter (fun i => negb (has_id id i)) (inbox s1)) s1 in
      (s2, [SaveData s2; RenderInbox; UpdateInboxBadge;
            ShowToast ConvertedToTask success])
  end.

Definition convertInboxToIdea (e : Env) (id : string) (s : State)
  : State * list (Effect State) :=
  match List.find (has_id id) (inbox s) with
  | None => (s, [])
  | Some item =>
      let idea := newIdea e (InboxItem.text item) in
      let s1 := set_ideas (ideas s ++ [idea]) s in
      let s2 :=
        set_inbox (List.filter (fun i => negb (has_id id i)) (inbox s1)) s1 in
      (s2, [SaveData s2; RenderInbox; UpdateInboxBadge;
            ShowToast ConvertedToIdea success])
  end.

(** ** Tasks *)

Definition task_has_id (id : string) (k : Task.t) : bool :=
  String.eqb (Task.id k) id.

(** [addQuickTask()]; [input] is the value of the quick-task field. *)
Definition addQuickTask (e : Env) (input : string) (s : State)
  : State * list (Effect State) :=
  let text := Js.trim input in
  if negb (Js.truthy text) then (s, [])
  else
    let s' := set_tasks (tasks s ++ [newTask e text]) s in
    (s', [SaveData s'; RenderTasks; ShowToast TaskAdded success]).

(** [showAddTaskModal()]; [answer] is what [prompt] returns, [None] when
    the dialog is cancelled. *)
Definition showAddTaskModal (e : Env) (answer : option string) (s : State)
  : State * list (Effect State) :=
  match answer with
  | Some text =>
      if Js.truthy text && Js.truthy (Js.trim text) then
        let s' := set_tasks (tasks s ++ [newTask e (Js.trim text)]) s in
        (s', [SaveData s'; RenderTasks; ShowToast TaskAdded success])
      else (s, [])
  | None => (s, [])
  end.

(** The two assignments of [toggleTask] on the task it found. *)
Definition toggle (e : Env) (k : Task.t) : Task.t :=
  let k1 := Task.set_completed (negb (Task.completed k)) k in
  Task.set_completedAt
    (if Task.completed k1 then Present (isoNow e) else Null) k1.

Definition toggleTask (e : Env) (currentPage : string) (id : string) (s : State)
  : State * list (Effect State) :=
  match List.find (task_has_id id) (tasks s) with
  | Some task =>
      let s' := set_tasks (update_first (task_has_id id) (toggle e) (tasks s)) s in
      (s', SaveData s' ::
           (if String.eqb currentPage "tasks" then RenderTasks
            else RenderDashboard) ::
           if Task.completed (toggle e task)
           then [ShowToast TaskCompleted success] else [])
  | None => (s, [])
  end.

Definition deleteTask (id : string) (s : State)
  : State * list (Effect State) :=
  let s' := set_tasks (List.filter (fun k => negb (task_has_id id k)) (tasks s)) s in
  (s', [SaveData s'; RenderTasks; ShowToast TaskDeleted info]).

(** [editTask(id)]; [answer] is what [prompt] returns. *)
Definition editTask (answer : option string) (id : string) (s : State)
  : State * list (Effect State) :=
  match List.find (task_has_id id) (tasks s) with
  | None => (s, [])
  | Some _ =>
      match answer with
      | Some newText =>
          if Js.truthy newText && Js.truthy (Js.trim newText) then
            let s' :=
              set_tasks (update_first (task_has_id id)
                           (Task.set_text (Js.trim newText)) (tasks s)) s in
            (s', [SaveData s'; RenderTasks; ShowToast TaskUpdated success])
          else (s, [])
      | None => (s, [])
      end
  end.

(** [completedAt] is set: the property exists and is not [null]. *)
Definition completedAt_set (k : Task.t) : bool :=
  match Task.completedAt k with
  | Present _ => true
  | _ => false
  end.

(** The invariant of the data model on one task. *)
Definition task_inv (k : Task.t) : Prop :=
  completedAt_set k = true <-> Task.completed k = true.

(** ** Persistence: the stored document as a JSON value *)

(** A value that [JSON.parse] returns.  [number] stands for the doubles;
    no function below looks into one. *)
#[warnings="-register-all"]
Inductive json (number : Type) : Type :=
  | JNull
  | JBool (b : bool)
  | JNumber (x : number)
  | JString (s : string)
  | JArray (l : list (json number))
  | JObject (m : gmap string (json number)).
Arguments JNull {number}.
Arguments JBool {number} b.
Arguments JNumber {number} x.
Arguments JString {number} s.
Arguments JArray {number} l.
Arguments JObject {number} m.

(** What [localStorage.getItem(DB_KEY)] does. *)
Inductive getItem_result :=
  | GetThrows
  | GetNull
  | GetString (s : string).

Inductive Log := ErrorLoadingData.   (* console.error('Error loading data:', e) *)

Module Store.
Section Store.
Context {number : Type}.

Local Abbreviation value := (json number).
Local Abbreviation object := (gmap string (json number)).

(** An array-like value as an object keyed by the decimal indices. *)
Definition indexed (l : list value) : object :=
  list_to_map (imap (fun i x => (pretty i, x)) l).

Definition units (s : string) : list value :=
  List.map (fun c => JString (String c EmptyString)) (list_ascii_of_string s).

(** The own enumerable properties that a spread [...v] copies. *)
Definition ownProperties (v : value) : object :=
  match v with
  | JObject m => m
  | JArray l => indexed l
  | JString s => indexed (units s)
  | JNull | JBool _ | JNumber _ => ∅
  end.

(** [{ ...d, ...v }]: the properties of [v] win. *)
Definition spread (d : object) (v : value) : object :=
  ownProperties v ∪ d.

Definition defaultData : object :=
  list_to_map
    [("inbox", JArray []);
     ("projects", JArray []);
     ("tasks", JArray []);
     ("ideas", JArray []);
     ("contacts", JArray []);
     ("settings",
      JObject (list_to_map [("darkMode", JBool true); ("apiKey", JString "")]))].

(** [loadData()], which runs once, when the script is loaded and
    [defaultData] still is the literal above.  [parse] is [JSON.parse]:
    [None] when it throws. *)
Definition loadData (parse : string -> option value) (stored : getItem_result)
  : object * list Log :=
  match stored with
  | GetThrows => (defaultData, [ErrorLoadingData])
  | GetNull => (defaultData, [])
  | GetString s =>
      if Js.truthy s then
        match parse s with
        | Some v => (spread defaultData v, [])
        | None => (defaultData, [ErrorLoadingData])
        end
      else (defaultData, [])
  end.

(** The [onload] handler of the import reader.  [content] is the text of
    the file.  [defaults] is the object [defaultData] as it is when the
    handler runs: [loadData] hands its arrays to [state] (the object
    itself, or a shallow copy), so they may have grown since.  [renders]
    tells whether [navigateTo('dashboard')] returns normally on a state;
    the call is inside the [try]. *)
Definition importOnLoad (parse : string -> option value)
    (renders : object -> bool) (defaults : object)
    (state : object) (content : string)
  : object * list (Effect object) :=
  match parse content with
  | None => (state, [ShowToast InvalidFileFormat error])
  | Some data =>
      let state' := spread defaults data in
      (state', [SaveData state'; NavigateTo "dashboard";
                if renders state' then ShowToast DataImported success
                else ShowToast InvalidFileFormat error])
  end.

End Store.
End Store.

(** ** Due status *)

(** Time values are integral numbers of milliseconds; [None] is [NaN], the
    time value of an invalid [Date]. *)
Module DateModel.
Local Open Scope Z_scope.

Definition msPerDay : Z := 86400000.
Definition maxTime : Z := 8640000000000000.

Definition Day (t : Z) : Z := t / msPerDay.

Definition TimeClip (t : Z) : option Z :=
  if Z.abs t <=? maxTime then Some t else None.

Section Zone.
(** [tza t isUTC] is the offset of the local time zone in milliseconds, at
    the UTC time [t] when [isUTC], at the local time [t] otherwise. *)
Variable tza : Z -> bool -> Z.
(** [Date.parse], behind [new Date(string)]. *)
Variable dateParse : string -> option Z.

Definition LocalTime (t : Z) : Z := t + tza t true.
Definition UTC (t : Z) : Z := t - tza t false.

(** The calendar day, in local time, of a time value. *)
Definition localDay (t : Z) : Z := Day (LocalTime t).

(** [d.setHours(0, 0, 0, 0)] on the time value of [d]. *)
Definition setHoursZero (tv : option Z) : option Z :=
  match tv with
  | None => None
  | Some t => TimeClip (UTC (Day (LocalTime t) * msPerDay + 0))
  end.

(** [getDueStatus(dueDate)]; [now] is the time value of [new Date()]. *)
Definition getDueStatus (now : Z) (dueDate : option string) : string :=
  match dueDate with
  | None => ""
  | Some d =>
      if negb (Js.truthy d) then ""
      else
        let due := dateParse d in
        let today := setHoursZero (Some now) in
        let due := setHoursZero due in
        match due, today with
        | Some a, Some b =>
            let diff := a - b in
            if diff <? 0 then "overdue"
            else if diff =? 0 then "today"
            else ""
        | _, _ => ""
        end
  end.

(** Local midnights of later days are later instants. *)
Definition zone_ordered : Prop :=
  forall d1 d2 : Z,
    d1 < d2 -> UTC (d1 * msPerDay) < UTC (d2 * msPerDay).

(** The local midnight of the day of [t] is a time value of a [Date]. *)
Definition midnight_in_range (t : Z) : Prop :=
  Z.abs (UTC (localDay t * msPerDay)) <= maxTime.

(** The local midnights of the days of [t] and of [now] are in the order
    of the days. *)
Definition midnights_ordered (t now : Z) : Prop :=
  (localDay t < localDay now ->
   UTC (localDay t * msPerDay) < UTC (localDay now * msPerDay)) /\
  (localDay now < localDay t ->
   UTC (localDay now * msPerDay) < UTC (localDay t * msPerDay)).

End Zone.

(** The status the specification gives to a difference of calendar days. *)
Definition statusOfDayDifference (diff : Z) : string :=
  if diff <? 0 then "overdue" else if diff =? 0 then "today" else "".

End DateModel.

(** ** Further operations: deletions and additions *)

(** The messages of the toasts of the functions below. *)
Inductive Notice :=
  | ProjectCreated      (* 'Project created!' *)
  | IdeaCaptured        (* 'Idea captured!' and an emoji *)
  | IdeaDeleted         (* 'Idea deleted' *)
  | ContactAdded        (* 'Contact added!' *)
  | NoResultsFound      (* 'No results found' *)
  | FoundResults (n : nat).  (* `Found ${n} result(s)` *)

Inductive PageEffect :=
  | Persist (data : State)           (* saveData(state) *)
  | Render (page : string)           (* renderProjects(), renderIdeas(), ... *)
  | Notify (m : Notice) (k : Kind).  (* showToast(m, k) *)

Definition set_projects (v : list Project.t) (s : State) : State :=
  mkState (inbox s) v (tasks s) (ideas s) (contacts s) (settings s).
Definition set_contacts (v : list Contact.t) (s : State) : State :=
  mkState (inbox s) (projects s) (tasks s) (ideas s) v (settings s).

(** The test [!name || !name.trim()] on what [prompt] returns. *)
Definition blank (answer : option string) : bool :=
  match answer with
  | None => true
  | Some name => negb (Js.truthy name) || negb (Js.truthy (Js.trim name))
  end.

(** [addProject()]; [answer] is what [prompt] returns. *)
Definition addProject (e : Env) (answer : option string) (s : State)
  : State * list PageEffect :=
  match answer with
  | Some name =>
      if blank answer then (s, [])
      else
        let project :=
          Project.mk (generateId e) (Js.trim name) "" "active" 0 0 (isoNow e) in
        let s' := set_projects (projects s ++ [project]) s in
        (s', [Persist s'; Render "projects"; Notify ProjectCreated success])
  | None => (s, [])
  end.

(** [addIdea()] *)
Definition addIdea (e : Env) (answer : option string) (s : State)
  : State * list PageEffect :=
  match answer with
  | Some text =>
      if blank answer then (s, [])
      else
        let s' := set_ideas (ideas s ++ [newIdea e (Js.trim text)]) s in
        (s', [Persist s'; Render "ideas"; Notify IdeaCaptured success])
  | None => (s, [])
  end.

(** [deleteIdea(id)] *)
Definition deleteIdea (id : string) (s : State) : State * list PageEffect :=
  let s' :=
    set_ideas
      (List.filter (fun i => negb (String.eqb (Idea.id i) id)) (ideas s)) s in
  (s', [Persist s'; Render "ideas"; Notify IdeaDeleted info]).

(** [addContact()] *)
Definition addContact (e : Env) (answer : option string) (s : State)
  : State * list PageEffect :=
  match answer with
  | Some name =>
      if blank answer then (s, [])
      else
        let contact :=
          Contact.mk (generateId e) (Js.trim name) "" "network" "" "" None None
            "" (isoNow e) in
        let s' := set_contacts (contacts s ++ [contact]) s in
        (s', [Persist s'; Render "contacts"; Notify ContactAdded success])
  | None => (s, [])
  end.

(** ** Further operations: what the pages show *)

(** The count that [updateInboxBadge] writes into the badge, which is
    also the [pendingInbox] of [renderDashboard]. *)
Definition inboxBadge (s : State) : nat :=
  length (List.filter
            (fun i => negb (String.eqb (InboxItem.status i) "done")) (inbox s)).

(** [arr.slice(-n)]: the last [n] elements. *)
Definition slice_last {A} (n : nat) (l : list A) : list A :=
  drop (length l - n) l.

(** [arr.slice(0, n)] *)
Definition slice_first {A} (n : nat) (l : list A) : list A := take n l.

(** The items of [renderRecentInbox], in the order of the cards. *)
Definition recentInbox (s : State) : list InboxItem.t :=
  reverse (slice_last 5 (inbox s)).

(** The items of [renderInbox], in the order of the cards. *)
Definition inboxPage (s : State) : list InboxItem.t := reverse (inbox s).

(** A hit of [performSearch]. *)
Inductive SearchResult :=
  | InboxHit (item : InboxItem.t)
  | TaskHit (item : Task.t)
  | IdeaHit (item : Idea.t).

(** The array [results] of [performSearch(query)]. *)
Definition searchResults (query : string) (s : State) : list SearchResult :=
  List.map InboxHit
    (List.filter
       (fun i => Js.includes (Js.toLowerCase (InboxItem.text i)) query)
       (inbox s)) ++
  List.map TaskHit
    (List.filter
       (fun k => Js.includes (Js.toLowerCase (Task.text k)) query)
       (tasks s)) ++
  List.map IdeaHit
    (List.filter
       (fun i => Js.includes (Js.toLowerCase (Idea.text i)) query)
       (ideas s)).

(** [performSearch(query)] *)
Definition performSearch (query : string) (s : State) : list PageEffect :=
  let results := searchResults query s in
  if Nat.eqb (length results) 0 then [Notify NoResultsFound info]
  else [Notify (FoundResults (length results)) success].

(** The [keydown] handler of the search field on Enter; [value] is the
    content of the field. *)
Definition searchOnEnter (value : string) (s : State) : list PageEffect :=
  let query := Js.toLowerCase (Js.trim value) in
  if Js.truthy query then performSearch query s else [].

Section Views.
(** The platform: the zone, [Date.parse], the formatter behind
    [toLocaleDateString] (its argument is the time value, [None] for an
    invalid date) and [Array.prototype.sort]. *)
Variable tza : Z -> bool -> Z.
Variable dateParse : string -> option Z.
Variable localeDate : option Z -> string.
Variable sort :
  (Task.t -> Task.t -> option Z) -> list Task.t -> list Task.t.

(** [formatDate(date)]; [now] is the time value of [new Date()]. *)
Definition formatDate (now : Z) (date : string) : string :=
  let d := dateParse date in
  match d with
  | None => localeDate d
  | Some t =>
      let diff := (now - t)%Z in
      if (diff <? 60000)%Z then "Just now"
      else if (diff <? 3600000)%Z then (pretty (diff / 60000)%Z ++ "m ago")%string
      else if (diff <? 86400000)%Z then (pretty (diff / 3600000)%Z ++ "h ago")%string
      else if (diff <? 604800000)%Z then (pretty (diff / 86400000)%Z ++ "d ago")%string
      else localeDate d
  end.

(** [!t.dueDate] *)
Definition noDueDate (k : Task.t) : bool :=
  match Task.dueDate k with
  | None => true
  | Some d => negb (Js.truthy d)
  end.

(** [new Date(a.dueDate) - new Date(b.dueDate)], for tasks with a due
    date; [None] is [NaN]. *)
Definition dueDifference (a b : Task.t) : option Z :=
  match Task.dueDate a, Task.dueDate b with
  | Some da, Some db =>
      match dateParse da, dateParse db with
      | Some x, Some y => Some (x - y)%Z
      | _, _ => None
      end
  | _, _ => None
  end.

Definition isHigh (k : Task.t) : bool := String.eqb (Task.priority k) "high".

(** The comparison function of the sort in [renderTasks]. *)
Definition compareTasks (a b : Task.t) : option Z :=
  if negb (Bool.eqb (Task.completed a) (Task.completed b))
  then Some (if Task.completed a then 1 else -1)%Z
  else if isHigh a && negb (isHigh b) then Some (-1)%Z
  else if isHigh b && negb (isHigh a) then Some 1%Z
  else if noDueDate a && noDueDate b then Some 0%Z
  else if noDueDate a then Some 1%Z
  else if noDueDate b then Some (-1)%Z
  else dueDifference a b.

(** The comparison function of the sort in [renderUpcomingTasks]. *)
Definition compareUpcoming (a b : Task.t) : option Z :=
  if noDueDate a then Some 1%Z
  else if noDueDate b then Some (-1)%Z
  else dueDifference a b.

Definition dueIs (now : Z) (status : string) (k : Task.t) : bool :=
  String.eqb (DateModel.getDueStatus tza dateParse now (Task.dueDate k)) status.

(** The tasks that [renderTasks] keeps for the value of [taskFilter],
    before it sorts them. *)
Definition filteredTasks (now : Z) (taskFilter : string) (s : State)
  : list Task.t :=
  if String.eqb taskFilter "active"
  then List.filter (fun t => negb (Task.completed t)) (tasks s)
  else if String.eqb taskFilter "completed"
  then List.filter (fun t => Task.completed t) (tasks s)
  else if String.eqb taskFilter "today"
  then List.filter
         (fun t => negb (Task.completed t) && dueIs now "today" t) (tasks s)
  else tasks s.

(** The tasks of [renderTasks], in the order of the cards. *)
Definition tasksPage (now : Z) (taskFilter : string) (s : State)
  : list Task.t :=
  sort compareTasks (filteredTasks now taskFilter s).

(** The tasks of [renderUpcomingTasks], in the order of the cards. *)
Definition upcomingTasks (s : State) : list Task.t :=
  slice_first 5
    (sort compareUpcoming
       (List.filter (fun t => negb (Task.completed t)) (tasks s))).


Definition briefingHighPriority (s : State) : list Task.t :=
  List.filter (fun t => negb (Task.completed t) && isHigh t) (tasks s).
Definition briefingNewInbox (s : State) : list InboxItem.t :=
  List.filter (fun i => String.eqb (InboxItem.status i) "new") (inbox s).

End Views.

(** ** Saving *)

Module Storage.
Section Storage.
Context {number : Type}.
Local Abbreviation object := (gmap string (json number)).

(** [saveData(data)] on the content of the storage key, [None] when the
    key is not set.  [stringify] is [JSON.stringify]; [setItem_throws]
    tells whether [localStorage.setItem] throws, as it does when the
    quota is exceeded: the error is caught and the key keeps its value. *)
Definition saveData (stringify : object -> string) (setItem_throws : bool)
    (data : object) (storage : option string) : option string :=
  if setItem_throws then storage else Some (stringify data).

(** [localStorage.getItem(DB_KEY)] when it does not throw. *)
Definition getItem (storage : option string) : getItem_result :=
  match storage with
  | None => GetNull
  | Some s => GetString s
  end.

End Storage.
End Storage.

(** ** Shared arrays: [defaultData] and [state] as objects of the heap *)

(** [loadData] returns the object [defaultData] itself, or a copy of its
    properties with the properties of the stored document over them, and
    the handlers of 'clear' and 'import' copy its properties again.  A copy
    of a property copies the reference: the array or the settings object
    behind it is the same one.  Here the top-level objects and the values
    of their properties live at addresses. *)
Module Shared.
Section Shared.
Context {A : Type}.   (* the records of the collections *)

Inductive cell :=
  | Arr (l : list A)
  | SettingsObj (v : Settings).

Record World := mkWorld {
  cells : gmap nat cell;                  (* arrays and settings objects *)
  objects : gmap nat (gmap string nat);   (* property name to address *)
  next : nat;                             (* the next free address *)
  defaultData : nat;                      (* const defaultData *)
  state : nat                             (* let state *)
}.

(** The heap once the literal of [defaultData] is evaluated; [state] is
    set by [loadData] below. *)
Definition boot : World :=
  mkWorld
    (list_to_map [(0, Arr []); (1, Arr []); (2, Arr []); (3, Arr []);
                  (4, Arr []); (5, SettingsObj (mkSettings true ""))])
    {[ 6 := list_to_map [("inbox", 0); ("projects", 1); ("tasks", 2);
                         ("ideas", 3); ("contacts", 4); ("settings", 5)] ]}
    7 6 6.

(** The properties of the object at [o]. *)
Definition props (o : nat) (w : World) : gmap string nat :=
  default ∅ (objects w !! o).

(** [{ ...defaultData, ...doc }]: the values of a parsed document are
    new, the other properties are copied from [defaultData]. *)
Fixpoint spread_doc (doc : list (string * cell)) (ps : gmap string nat)
    (w : World) : gmap string nat * World :=
  match doc with
  | [] => (ps, w)
  | (k, v) :: doc' =>
      spread_doc doc' (<[k := next w]> ps)
        (mkWorld (<[next w := v]> (cells w)) (objects w) (S (next w))
           (defaultData w) (state w))
  end.

(** [state = { ...defaultData, ...doc }] *)
Definition assign_spread (doc : list (string * cell)) (w : World) : World :=
  let (ps, w1) := spread_doc doc (props (defaultData w) w) w in
  mkWorld (cells w1) (<[next w1 := ps]> (objects w1)) (S (next w1))
    (defaultData w1) (next w1).

(** [let state = loadData()]; [parsed] is the stored document, [None]
    when there is none or it cannot be parsed. *)
Definition loadData (parsed : option (list (string * cell))) (w : World)
  : World :=
  match parsed with
  | None =>
      mkWorld (cells w) (objects w) (next w) (defaultData w) (defaultData w)
  | Some doc => assign_spread doc w
  end.

(** The handler of 'clear', once confirmed: [state = { ...defaultData }]. *)
Definition clearData (w : World) : World := assign_spread [] w.

(** The handler of 'import' on a parsed file. *)
Definition importData (doc : list (string * cell)) (w : World) : World :=
  assign_spread doc w.

(** The array behind [state[k]], and behind [defaultData[k]]. *)
Definition read (k : string) (w : World) : option (list A) :=
  match props (state w) w !! k with
  | Some a => match cells w !! a with Some (Arr l) => Some l | _ => None end
  | None => None
  end.

Definition readDefault (k : string) (w : World) : option (list A) :=
  match props (defaultData w) w !! k with
  | Some a => match cells w !! a with Some (Arr l) => Some l | _ => None end
  | None => None
  end.

(** [state[k].push(x)]; [None] when [state[k]] is no array. *)
Definition push (k : string) (x : A) (w : World) : option World :=
  match props (state w) w !! k with
  | Some a =>
      match cells w !! a with
      | Some (Arr l) =>
          Some (mkWorld (<[a := Arr (l ++ [x])]> (cells w)) (objects w)
                  (next w) (defaultData w) (state w))
      | _ => None
      end
  | None => None
  end.

(** [state[k] = state[k].filter(p)]: the filtered array is a new one. *)
Definition assign_filter (k : string) (p : A -> bool) (w : World)
  : option World :=
  match props (state w) w !! k with
  | Some a =>
      match cells w !! a with
      | Some (Arr l) =>
          Some (mkWorld (<[next w := Arr (List.filter p l)]> (cells w))
                  (<[state w := <[k := next w]> (props (state w) w)]>
                     (objects w))
                  (S (next w)) (defaultData w) (state w))
      | _ => None
      end
  | None => None
  end.

(** Every address in use is below [next]. *)
Definition wf (w : World) : Prop :=
  (forall a c, cells w !! a = Some c -> a < next w) /\
  (forall o ps, objects w !! o = Some ps -> o < next w).

End Shared.
End Shared.

(** ** Predicates of the further properties *)

Definition first_unit (s : string) : option ascii :=
  match s with
  | EmptyString => None
  | String c _ => Some c
  end.

Fixpoint last_unit (s : string) : option ascii :=
  match s with
  | EmptyString => None
  | String c EmptyString => Some c
  | String _ s' => last_unit s'
  end.

(** No white space at either end. *)
Definition trimmed (s : string) : Prop :=
  (forall c, first_unit s = Some c -> Js.is_space c = false) /\
  (forall c, last_unit s = Some c -> Js.is_space c = false).

(** No record of the state has an empty text or name. *)
Definition texts_nonempty (s : State) : Prop :=
  Forall (fun i => InboxItem.text i <> "") (inbox s) /\
  Forall (fun k => Task.text k <> "") (tasks s) /\
  Forall (fun i => Idea.text i <> "") (ideas s) /\
  Forall (fun p => Project.name p <> "") (projects s) /\
  Forall (fun c => Contact.name c <> "") (contacts s).

(** ** Sample data *)

Definition sample_env : Env :=
  mkEnv 1700000000000 "0.4fzyo82mvyr" "2023-11-14T22:13:20.000Z".

Definition sample_item : InboxItem.t :=
  InboxItem.mk "lp1a2b3cxyz" "need to check http://x.com" "thought" "new"
    "2023-11-14T22:00:00.000Z" "".

Definition long_item : InboxItem.t :=
  InboxItem.mk "lp1a2b3cabc"
    "Remember the quarterly report for the finance team!"
    "thought" "new" "2023-11-14T22:05:00.000Z" "".

Definition sample_state : State :=
  mkState [sample_item; long_item] [] [] [] [] (mkSettings true "").

(** A store, as an imported file can hold it, in which two inbox items
    carry the same id. *)
Definition duplicate_state : State :=
  mkState
    [InboxItem.mk "a" "first" "thought" "new" "2023-11-14T22:00:00.000Z" "";
     InboxItem.mk "a" "second" "thought" "new" "2023-11-14T22:01:00.000Z" ""]
    [] [] [] [] (mkSettings true "").

(** A store whose inbox item carries the id that [generateId] returns
    in [sample_env]. *)
Definition clash_state : State :=
  mkState
    [InboxItem.mk "loyw3v284fzyo82mvyr" "first" "thought" "new"
       "2023-11-14T22:00:00.000Z" ""]
    [] [] [] [] (mkSettings true "").

(** Tasks as [toggleTask] and the creation functions leave them. *)
Definition done_task : Task.t :=
  Task.mk "loyw3v28aaa" "water the plants" true "medium" None None []
    "2023-11-14T22:00:00.000Z" (Present "2023-11-14T22:10:00.000Z").

Definition tasks_state : State :=
  mkState [sample_item] [] [done_task; newTask sample_env "call the bank"]
    [] [] (mkSettings true "").

(** The double quote, and a stored document with an unknown key, a known
    key and no other: an object with [theme] set to [null] and [inbox] set
    to an array that holds [null]. *)
Definition dq : string := String (ascii_of_nat 34) EmptyString.

Definition theme_document : string :=
  ("{" ++ dq ++ "theme" ++ dq ++ ":null," ++ dq ++ "inbox" ++ dq ++ ":[null]}")%string.

(** [JSON.parse] on the documents of the examples; as the real one it
    throws on the empty text and on text that is no JSON. *)
Definition sample_parse (s : string) : option (json Z) :=
  if String.eqb s theme_document
  then Some (JObject (list_to_map [("theme", JNull); ("inbox", JArray [JNull])]))
  else if String.eqb s "null" then Some JNull
  else if String.eqb s "[]" then Some (JArray [])
  else None.



(** The object of [theme_document], and a [JSON.stringify] that writes
    this document. *)
Definition theme_object : gmap string (json Z) :=
  list_to_map [("theme", JNull); ("inbox", JArray [JNull])].

Definition sample_stringify (data : gmap string (json Z)) : string :=
  theme_document.

(** A zone one hour east of UTC, and a parser for one date string,
    2023-11-14T22:13:20Z, which is a quarter past eleven in that zone. *)
Definition sample_tza (t : Z) (isUTC : bool) : Z := 3600000.

Definition sample_dateParse (d : string) : option Z :=
  if String.eqb d "2023-11-14T22:13:20.000Z" then Some 1700000000000%Z
  else None.

(** [Date.parse] on the first instant that a [Date] can hold. *)
Definition edge_dateParse (d : string) : option Z :=
  if String.eqb d "-271821-04-20T00:00:00.000Z"
  then Some (-8640000000000000)%Z
  else None.

(** * Properties *)

Local Open Scope nat_scope.

(** ** Strings *)

Lemma prefix_iff (k s : string) :
  String.prefix k s = true <-> exists suf : string, s = (k ++ suf)%string.
Proof.
  revert s. induction k as [|a k IH]; intros s.
  - destruct s; simpl; split; eauto.
  - destruct s as [|b s]; simpl.
    + split; [discriminate | intros [suf H]; discriminate].
    + destruct (ascii_dec a b) as [->|Hab].
      * rewrite IH. split; intros [suf H]; exists suf.
        -- now rewrite H.
        -- now inversion H.
      * split; [discriminate | intros [suf H]; inversion H; congruence].
Qed.

Lemma includes_iff (s k : string) :
  Js.includes s k = true <-> contains s k.
Proof.
  unfold contains. induction s as [|c s IH]; cbn [Js.includes].
  - rewrite orb_false_r, prefix_iff. split.
    + intros [suf H]. exists EmptyString, suf. exact H.
    + intros [pre [suf H]]. destruct pre; simpl in H; [eauto | discriminate].
  - rewrite orb_true_iff, prefix_iff, IH. split.
    + intros [[suf H] | [pre [suf H]]].
      * exists EmptyString, suf. exact H.
      * exists (String c pre), suf. simpl. now rewrite H.
    + intros [pre [suf H]]. destruct pre as [|c' pre]; simpl in H.
      * left. eauto.
      * right. inversion H. eauto.
Qed.

Lemma group_iff (text : string) (markers : list string) :
  existsb (Js.includes (Js.toLowerCase text)) markers = true
  <-> matches_group text markers.
Proof.
  unfold matches_group. rewrite existsb_exists.
  split; intros [k [Hin Hk]]; exists k; split; auto; now apply includes_iff.
Qed.

Lemma group_false (text : string) (markers : list string) :
  ~ matches_group text markers ->
  existsb (Js.includes (Js.toLowerCase text)) markers = false.
Proof.
  intros H. apply not_true_is_false. intros E. apply H. now apply group_iff.
Qed.

Lemma length_toLowerCase (s : string) :
  String.length (Js.toLowerCase s) = String.length s.
Proof. induction s; simpl; congruence. Qed.

Lemma truthy_true (s : string) : s <> "" -> Js.truthy s = true.
Proof.
  intros H. unfold Js.truthy. apply negb_true_iff, String.eqb_neq. exact H.
Qed.

(** ** Generated ids *)

Lemma append_assoc (a b c : string) :
  ((a ++ b) ++ c)%string = (a ++ (b ++ c))%string.
Proof.
  induction a as [|x a IH]; [reflexivity|].
  change (String x ((a ++ b) ++ c) = String x (a ++ (b ++ c)))%string.
  now rewrite IH.
Qed.

Lemma value36_digit36 (d : N) : (d < 36)%N -> Js.value36 (Js.digit36 d) = d.
Proof.
  intros Hd. unfold Js.value36, Js.digit36.
  destruct (d <? 10)%N eqn:E.
  - apply N.ltb_lt in E. rewrite N_ascii_embedding by lia.
    assert (H : (48 + d <? 58)%N = true) by (apply N.ltb_lt; lia).
    rewrite H. lia.
  - apply N.ltb_ge in E. rewrite N_ascii_embedding by lia.
    assert (H : (87 + d <? 58)%N = false) by (apply N.ltb_ge; lia).
    rewrite H. lia.
Qed.

Lemma toString36_aux_S (fuel : nat) (n : N) (acc : string) :
  Js.toString36_aux (S fuel) n acc
  = if (n / 36 =? 0)%N then String (Js.digit36 (n mod 36)) acc
    else Js.toString36_aux fuel (n / 36) (String (Js.digit36 (n mod 36)) acc).
Proof. reflexivity. Qed.

Lemma toString36_aux_acc (fuel : nat) (n : N) (acc : string) :
  Js.toString36_aux fuel n acc
  = (Js.toString36_aux fuel n EmptyString ++ acc)%string.
Proof.
  revert n acc. induction fuel as [|fuel IH]; intros n acc; [reflexivity|].
  rewrite !toString36_aux_S. destruct (n / 36 =? 0)%N; [reflexivity|].
  rewrite (IH _ (String _ acc)), (IH _ (String _ EmptyString)).
  now rewrite append_assoc.
Qed.

Lemma parseInt36_aux_app (a b : string) (acc : N) :
  Js.parseInt36_aux (a ++ b) acc
  = Js.parseInt36_aux b (Js.parseInt36_aux a acc).
Proof.
  revert acc. induction a as [|x a IH]; intros acc; [reflexivity|].
  change (Js.parseInt36_aux (a ++ b) (acc * 36 + Js.value36 x)
          = Js.parseInt36_aux b (Js.parseInt36_aux a (acc * 36 + Js.value36 x))).
  apply IH.
Qed.

(** With enough fuel the digits denote the number. *)
Lemma parseInt36_toString36_aux (fuel : nat) (n : N) :
  (n < 2 ^ N.of_nat fuel)%N ->
  Js.parseInt36 (Js.toString36_aux (S fuel) n EmptyString) = n.
Proof.
  revert n. induction fuel as [|fuel IH]; intros n Hn.
  - assert (n = 0%N) as -> by (simpl in Hn; lia). reflexivity.
  - rewrite toString36_aux_S. destruct (n / 36 =? 0)%N eqn:E.
    + apply N.eqb_eq in E.
      assert (Hsmall : (n < 36)%N).
      { destruct (N.lt_ge_cases n 36) as [H|H]; [exact H|].
        pose proof (N.Div0.div_le_mono 36 n 36 H) as H1.
        rewrite N.div_same in H1 by lia. lia. }
      rewrite N.mod_small by exact Hsmall.
      unfold Js.parseInt36. cbn [Js.parseInt36_aux].
      rewrite value36_digit36 by exact Hsmall. lia.
    + rewrite toString36_aux_acc. unfold Js.parseInt36.
      rewrite parseInt36_aux_app. fold (Js.parseInt36
        (Js.toString36_aux (S fuel) (n / 36) EmptyString)).
      rewrite IH.
      * cbn [Js.parseInt36_aux].
        rewrite value36_digit36 by (apply N.mod_lt; lia).
        pose proof (N.div_mod n 36). lia.
      * apply N.Div0.div_lt_upper_bound.
        rewrite Nat2N.inj_succ, N.pow_succ_r' in Hn. lia.
Qed.

Lemma parseInt36_toString36 (n : N) : Js.parseInt36 (Js.toString36 n) = n.
Proof.
  unfold Js.toString36. apply parseInt36_toString36_aux.
  rewrite N2Nat.id. apply N.size_gt.
Qed.

Lemma toString36_inj (a b : N) : Js.toString36 a = Js.toString36 b -> a = b.
Proof.
  intros H. rewrite <- (parseInt36_toString36 a), <- (parseInt36_toString36 b).
  now rewrite H.
Qed.

Lemma append_same_length (a1 a2 b1 b2 : string) :
  String.length a1 = String.length a2 ->
  (a1 ++ b1)%string = (a2 ++ b2)%string -> a1 = a2.
Proof.
  revert a2. induction a1 as [|x a1 IH]; intros [|y a2] Hl H;
    try discriminate; [reflexivity|].
  change (String x (a1 ++ b1) = String y (a2 ++ b2))%string in H.
  injection H as -> H. f_equal. apply IH; [now injection Hl | exact H].
Qed.

(** Two ids that [generateId] makes at different readings of the clock
    differ when the readings have as many base-36 digits, which is so for
    all readings between the years 1972 and 2059. *)
Lemma generateId_fresh (e0 e : Env) :
  clock e0 <> clock e ->
  String.length (Js.toString36 (clock e0))
    = String.length (Js.toString36 (clock e)) ->
  generateId e <> generateId e0.
Proof.
  intros Hclock Hlen Heq. apply Hclock. apply toString36_inj.
  symmetry. unfold generateId in Heq.
  apply (append_same_length _ _ _ _ (eq_sym Hlen) Heq).
Qed.

(** ** The classifier *)

Lemma orb5 (a b c d e : bool) :
  a || b || c || d || e = a || (b || (c || (d || (e || false)))).
Proof. now destruct a, b, c, d, e. Qed.

Lemma orb4 (a b c d : bool) :
  a || b || c || d = a || (b || (c || (d || false))).
Proof. now destruct a, b, c, d. Qed.

Lemma classify_type (item : InboxItem.t) :
  InboxItem.type (classify item) = classified_type item.
Proof.
  unfold classify, classified_type, task_markers, idea_markers, link_markers.
  cbn [existsb]. rewrite orb5, !orb4.
  repeat match goal with
         | |- context [if ?b then _ else _] => destruct b
         end; reflexivity.
Qed.

(** Case analysis on the tests of [classify], keeping the projections of
    the updated item reduced. *)
Ltac item_simpl :=
  cbn [InboxItem.text InboxItem.set_type InboxItem.set_aiSummary
       InboxItem.id InboxItem.type InboxItem.status InboxItem.createdAt
       InboxItem.aiSummary].

Ltac classify_cases :=
  unfold classify; item_simpl;
  repeat (match goal with
          | |- context [if ?b then _ else _] =>
              lazymatch b with
              | context [if _ then _ else _] => fail
              | _ => destruct b
              end
          end; item_simpl).

Lemma classify_text (item : InboxItem.t) :
  InboxItem.text (classify item) = InboxItem.text item.
Proof. classify_cases; reflexivity. Qed.

(** C1. Classification matches the lowercased text against the task, idea
    and link keyword groups in this order and the first group that matches
    decides the type; when no group matches the type is left as it was.
    The result does not depend on the case of the text, and the text
    "need to check http://x.com", which matches the task and the link
    group, becomes a task. *)
Theorem classify_keyword_groups (item : InboxItem.t) :
  (matches_group (InboxItem.text item) task_markers ->
   InboxItem.type (classify item) = "task") /\
  (~ matches_group (InboxItem.text item) task_markers ->
   matches_group (InboxItem.text item) idea_markers ->
   InboxItem.type (classify item) = "idea") /\
  (~ matches_group (InboxItem.text item) task_markers ->
   ~ matches_group (InboxItem.text item) idea_markers ->
   matches_group (InboxItem.text item) link_markers ->
   InboxItem.type (classify item) = "link") /\
  (~ matches_group (InboxItem.text item) task_markers ->
   ~ matches_group (InboxItem.text item) idea_markers ->
   ~ matches_group (InboxItem.text item) link_markers ->
   InboxItem.type (classify item) = InboxItem.type item) /\
  (forall other : InboxItem.t,
     Js.toLowerCase (InboxItem.text other) = Js.toLowerCase (InboxItem.text item) ->
     InboxItem.type other = InboxItem.type item ->
     InboxItem.type (classify other) = InboxItem.type (classify item)) /\
  (InboxItem.text item = "need to check http://x.com" ->
   matches_group (InboxItem.text item) task_markers /\
   matches_group (InboxItem.text item) link_markers /\
   InboxItem.type (classify item) = "task").
Proof.
  rewrite classify_type. unfold classified_type.
  repeat split.
  - intros H. apply group_iff in H. now rewrite H.
  - intros H1 H2. apply group_false in H1. apply group_iff in H2.
    now rewrite H1, H2.
  - intros H1 H2 H3. apply group_false in H1, H2. apply group_iff in H3.
    now rewrite H1, H2, H3.
  - intros H1 H2 H3. apply group_false in H1, H2, H3.
    now rewrite H1, H2, H3.
  - intros other Ht Hty. rewrite classify_type. unfold classified_type.
    now rewrite Ht, Hty.
  - rewrite H. apply group_iff. reflexivity.
  - rewrite H. apply group_iff. reflexivity.
  - rewrite H. reflexivity.
Qed.

Lemma classify_keyword_groups_witness :
  matches_group (InboxItem.text sample_item) task_markers /\
  InboxItem.type (classify sample_item) = "task".
Proof.
  assert (H : matches_group (InboxItem.text sample_item) task_markers)
    by (apply group_iff; reflexivity).
  split; [exact H|].
  exact (proj1 (classify_keyword_groups sample_item) H).
Defined.

Lemma substring_prefix (n : nat) (s : string) :
  n <= String.length s ->
  exists rest : string,
    s = (String.substring 0 n s ++ rest)%string /\
    String.length (String.substring 0 n s) = n.
Proof.
  revert s. induction n as [|n IH]; intros s Hn.
  - exists s. split; destruct s; reflexivity.
  - destruct s as [|c s]; simpl in Hn; [lia|].
    destruct (IH s) as [rest [Hs Hl]]; [lia|].
    exists rest. split.
    + cbn [String.substring]. rewrite Hs at 1. reflexivity.
    + cbn [String.substring String.length]. now rewrite Hl.
Qed.

Lemma length_append (a b : string) :
  String.length (a ++ b) = String.length a + String.length b.
Proof.
  induction a as [|c a IH]; [reflexivity|].
  change (S (String.length (a ++ b)) = S (String.length a + String.length b)).
  now rewrite IH.
Qed.

Lemma classify_aiSummary (item : InboxItem.t) :
  InboxItem.aiSummary (classify item) =
  if 50 <? String.length (InboxItem.text item)
  then (String.substring 0 47 (InboxItem.text item) ++ "...")%string
  else InboxItem.aiSummary item.
Proof. classify_cases; reflexivity. Qed.

Lemma classify_id (item : InboxItem.t) :
  InboxItem.id (classify item) = InboxItem.id item.
Proof. classify_cases; reflexivity. Qed.

Lemma classify_status (item : InboxItem.t) :
  InboxItem.status (classify item) = InboxItem.status item.
Proof. classify_cases; reflexivity. Qed.

Lemma classify_createdAt (item : InboxItem.t) :
  InboxItem.createdAt (classify item) = InboxItem.createdAt item.
Proof. classify_cases; reflexivity. Qed.

Lemma item_eq (a b : InboxItem.t) :
  InboxItem.id a = InboxItem.id b ->
  InboxItem.text a = InboxItem.text b ->
  InboxItem.type a = InboxItem.type b ->
  InboxItem.status a = InboxItem.status b ->
  InboxItem.createdAt a = InboxItem.createdAt b ->
  InboxItem.aiSummary a = InboxItem.aiSummary b ->
  a = b.
Proof. destruct a, b; simpl; intros; subst; reflexivity. Qed.

(** C5. When the text is longer than 50 code units, classification sets
    the summary to the first 47 units of the text followed by three dots,
    50 units in all; when the text has 50 units or fewer the summary is
    not touched, so the empty summary of a captured item stays empty. *)
Theorem classify_summary (item : InboxItem.t) :
  (50 < String.length (InboxItem.text item) ->
   exists first rest : string,
     InboxItem.text item = (first ++ rest)%string /\
     String.length first = 47 /\
     InboxItem.aiSummary (classify item) = (first ++ "...")%string /\
     String.length (InboxItem.aiSummary (classify item)) = 50) /\
  (String.length (InboxItem.text item) <= 50 ->
   InboxItem.aiSummary (classify item) = InboxItem.aiSummary item /\
   (InboxItem.aiSummary item = "" ->
    InboxItem.aiSummary (classify item) = "")).
Proof.
  rewrite classify_aiSummary. split.
  - intros Hlen.
    destruct (substring_prefix 47 (InboxItem.text item)) as [rest [Hs Hl]];
      [lia|].
    apply Nat.ltb_lt in Hlen. rewrite Hlen.
    exists (String.substring 0 47 (InboxItem.text item)), rest.
    repeat split; auto.
    rewrite length_append, Hl. reflexivity.
  - intros Hlen.
    assert (E : (50 <? String.length (InboxItem.text item)) = false)
      by (apply Nat.ltb_ge; lia).
    rewrite E. split; auto.
Qed.

Lemma classify_summary_witness :
  50 < String.length (InboxItem.text long_item) /\
  exists first rest : string,
    InboxItem.text long_item = (first ++ rest)%string /\
    String.length first = 47 /\
    InboxItem.aiSummary (classify long_item) = (first ++ "...")%string /\
    String.length (InboxItem.aiSummary (classify long_item)) = 50.
Proof.
  assert (H : 50 < String.length (InboxItem.text long_item))
    by (vm_compute; lia).
  split; [exact H|].
  exact (proj1 (classify_summary long_item) H).
Defined.


(** ** Arrays *)

Lemma find_absent {A} (p : A -> bool) (l : list A) :
  (forall x, In x l -> p x = false) -> List.find p l = None.
Proof.
  induction l as [|x l IH]; intros H; simpl; [reflexivity|].
  rewrite (H x) by (now left). apply IH. intros y Hy. apply H. now right.
Qed.

Lemma find_present {A} (p : A -> bool) (l : list A) (x : A) :
  List.find p l = Some x -> In x l /\ p x = true.
Proof. apply List.find_some. Qed.

Lemma update_first_absent {A} (p : A -> bool) (f : A -> A) (l : list A) :
  List.find p l = None -> update_first p f l = l.
Proof.
  induction l as [|x l IH]; simpl; [reflexivity|].
  destruct (p x); [discriminate|]. intros H. now rewrite IH.
Qed.

Lemma length_update_first {A} (p : A -> bool) (f : A -> A) (l : list A) :
  length (update_first p f l) = length l.
Proof.
  induction l as [|x l IH]; simpl; [reflexivity|].
  destruct (p x); simpl; congruence.
Qed.

(** A slot keeps its element, unless it is the first slot that satisfies
    [p], which gets [f] of its element. *)
Lemma update_first_lookup {A} (p : A -> bool) (f : A -> A) (l : list A)
    (n : nat) (x : A) :
  l !! n = Some x ->
  update_first p f l !! n = Some x \/
  (update_first p f l !! n = Some (f x) /\ p x = true /\
   forall (m : nat) (y : A), m < n -> l !! m = Some y -> p y = false).
Proof.
  revert n. induction l as [|a l IH]; intros n Hn; [discriminate|].
  simpl. destruct (p a) eqn:Hpa.
  - destruct n as [|n]; simpl in *.
    + injection Hn as ->. right. repeat split; auto. intros m y Hm. lia.
    + now left.
  - destruct n as [|n]; simpl in *.
    + now left.
    + destruct (IH n Hn) as [H | [H1 [H2 H3]]]; [now left|].
      right. repeat split; auto.
      intros [|m] y Hm Hy; simpl in Hy.
      * now injection Hy as <-.
      * apply (H3 m); [lia | exact Hy].
Qed.

Lemma length_filter_split {A} (p : A -> bool) (l : list A) :
  length (List.filter (fun x => negb (p x)) l) + length (List.filter p l)
  = length l.
Proof.
  induction l as [|x l IH]; simpl; [reflexivity|].
  destruct (p x); simpl; lia.
Qed.

Lemma has_id_true (id : string) (i : InboxItem.t) :
  has_id id i = true <-> InboxItem.id i = id.
Proof. unfold has_id. apply String.eqb_eq. Qed.

Lemma find_no_such_id (id : string) (l : list InboxItem.t) :
  (forall item, In item l -> InboxItem.id item <> id) ->
  List.find (has_id id) l = None.
Proof.
  intros H. apply find_absent. intros x Hx.
  apply not_true_is_false. rewrite has_id_true. now apply H.
Qed.

Lemma find_update_first {A} (p : A -> bool) (f : A -> A) (l : list A) (x : A) :
  (forall y, p (f y) = p y) ->
  List.find p l = Some x -> List.find p (update_first p f l) = Some (f x).
Proof.
  intros Hp. induction l as [|a l IH]; simpl; [discriminate|].
  destruct (p a) eqn:Ha; simpl.
  - intros [= ->]. now rewrite Hp, Ha.
  - rewrite Ha. exact IH.
Qed.

Lemma update_first_idem {A} (p : A -> bool) (f : A -> A) (l : list A) :
  (forall y, p (f y) = p y) -> (forall y, f (f y) = f y) ->
  update_first p f (update_first p f l) = update_first p f l.
Proof.
  intros Hp Hf. induction l as [|a l IH]; simpl; [reflexivity|].
  destruct (p a) eqn:Ha; simpl.
  - now rewrite Hp, Ha, Hf.
  - now rewrite Ha, IH.
Qed.

(** ** The inbox: frame of the classifier *)

Lemma classify_classify (item : InboxItem.t) :
  classify (classify item) = classify item.
Proof.
  apply item_eq; rewrite ?classify_id, ?classify_status,
    ?classify_createdAt, ?classify_text; try reflexivity.
  - rewrite !classify_type. unfold classified_type.
    rewrite classify_text, classify_type. unfold classified_type.
    repeat match goal with
           | |- context [if ?b then _ else _] => destruct b
           end; reflexivity.
  - rewrite !classify_aiSummary, classify_text.
    destruct (50 <? _); reflexivity.
Qed.

Lemma has_id_classify (id : string) (item : InboxItem.t) :
  has_id id (classify item) = has_id id item.
Proof. unfold has_id. now rewrite classify_id. Qed.

(** C9. Classification is idempotent: a second application to the
    classified item, whose text is the original one, changes nothing, so
    the type and the summary are those of the first application; a second
    run of [classifyInboxItem] on the same id leaves the state of the
    first run. *)
Theorem classify_idempotent (item : InboxItem.t) :
  classify (classify item) = classify item /\
  InboxItem.text (classify item) = InboxItem.text item /\
  InboxItem.type (classify (classify item)) = InboxItem.type (classify item) /\
  InboxItem.aiSummary (classify (classify item)) =
    InboxItem.aiSummary (classify item) /\
  (forall (page id : string) (s : State),
     (classifyInboxItem page id (classifyInboxItem page id s).1).1
     = (classifyInboxItem page id s).1).
Proof.
  rewrite classify_classify. repeat split; [apply classify_text|].
  intros page id s. unfold classifyInboxItem.
  destruct (List.find (has_id id) (inbox s)) as [found|] eqn:Hfind;
    cbn [fst inbox set_inbox].
  - rewrite (find_update_first _ _ _ _ (has_id_classify id) Hfind).
    cbn [fst]. unfold set_inbox. cbn [inbox projects tasks ideas contacts settings].
    now rewrite (update_first_idem _ _ _ (has_id_classify id) classify_classify).
  - now rewrite Hfind.
Qed.


(** C10. [classifyInboxItem] changes at most the type and the summary of
    the matched inbox item, the first one that carries the id: every slot
    of the inbox keeps an item with the same id, text, creation time and
    status, only the matched slot may hold a different item, and the
    tasks, projects, ideas, contacts and settings are the same.  When no
    inbox item has the id, the store is unchanged and nothing is saved. *)
Theorem classifyInboxItem_frame (page id : string) (s : State) :
  projects (classifyInboxItem page id s).1 = projects s /\
  tasks (classifyInboxItem page id s).1 = tasks s /\
  ideas (classifyInboxItem page id s).1 = ideas s /\
  contacts (classifyInboxItem page id s).1 = contacts s /\
  settings (classifyInboxItem page id s).1 = settings s /\
  length (inbox (classifyInboxItem page id s).1) = length (inbox s) /\
  (forall (n : nat) (item : InboxItem.t),
     inbox s !! n = Some item ->
     exists item' : InboxItem.t,
       inbox (classifyInboxItem page id s).1 !! n = Some item' /\
       InboxItem.id item' = InboxItem.id item /\
       InboxItem.text item' = InboxItem.text item /\
       InboxItem.createdAt item' = InboxItem.createdAt item /\
       InboxItem.status item' = InboxItem.status item /\
       (item' <> item ->
        item' = classify item /\
        InboxItem.id item = id /\
        forall (m : nat) (other : InboxItem.t),
          m < n -> inbox s !! m = Some other -> InboxItem.id other <> id)) /\
  ((forall item, In item (inbox s) -> InboxItem.id item <> id) ->
   classifyInboxItem page id s = (s, [])).
Proof.
  unfold classifyInboxItem.
  destruct (List.find (has_id id) (inbox s)) as [found|] eqn:Hfind; simpl.
  - repeat split; auto using length_update_first.
    + intros n item Hn.
      destruct (update_first_lookup (has_id id) classify _ _ _ Hn)
        as [H | [H1 [H2 H3]]].
      * exists item. split; [exact H|]. do 4 (split; [reflexivity|]).
        intros Hne. now elim Hne.
      * exists (classify item).
        rewrite classify_id, classify_text, classify_createdAt,
          classify_status.
        split; [exact H1|]. do 4 (split; [reflexivity|]).
        intros _. split; [reflexivity|]. split; [now apply has_id_true|].
        intros m other Hm Hother Hid. apply has_id_true in Hid.
        rewrite (H3 m other) in Hid; auto. discriminate.
    + intros Hno. rewrite find_no_such_id in Hfind by exact Hno.
      discriminate.
  - repeat split; auto.
    intros n item Hn. exists item. split; [exact Hn|].
    do 4 (split; [reflexivity|]). intros Hne. now elim Hne.
Qed.

Lemma classifyInboxItem_frame_witness :
  inbox sample_state !! 0 = Some sample_item /\
  exists item' : InboxItem.t,
    inbox (classifyInboxItem "inbox" "lp1a2b3cxyz" sample_state).1 !! 0
      = Some item' /\
    InboxItem.id item' = InboxItem.id sample_item /\
    InboxItem.text item' = InboxItem.text sample_item /\
    InboxItem.createdAt item' = InboxItem.createdAt sample_item /\
    InboxItem.status item' = InboxItem.status sample_item /\
    (item' <> sample_item ->
     item' = classify sample_item /\
     InboxItem.id sample_item = "lp1a2b3cxyz" /\
     forall (m : nat) (other : InboxItem.t),
       m < 0 -> inbox sample_state !! m = Some other ->
       InboxItem.id other <> "lp1a2b3cxyz").
Proof.
  split; [reflexivity|].
  apply (proj1 (proj2 (proj2 (proj2 (proj2 (proj2 (proj2
    (classifyInboxItem_frame "inbox" "lp1a2b3cxyz" sample_state))))))) 0
    sample_item).
  reflexivity.
Defined.

(** ** The conversion pipeline *)

(** C6. When no inbox item carries the id, [convertInboxToTask] and
    [convertInboxToIdea] return without any effect: the state is the one
    they received and nothing is saved, rendered or announced. *)
Theorem convert_missing_noop (e : Env) (id : string) (s : State) :
  (forall item, In item (inbox s) -> InboxItem.id item <> id) ->
  convertInboxToTask e id s = (s, []) /\
  convertInboxToIdea e id s = (s, []).
Proof.
  intros Hno. unfold convertInboxToTask, convertInboxToIdea.
  now rewrite (find_no_such_id id (inbox s) Hno).
Qed.

Lemma convert_missing_noop_witness :
  (forall item, In item (inbox sample_state) -> InboxItem.id item <> "nope") /\
  convertInboxToTask sample_env "nope" sample_state = (sample_state, []) /\
  convertInboxToIdea sample_env "nope" sample_state = (sample_state, []).
Proof.
  assert (H : forall item, In item (inbox sample_state) ->
                           InboxItem.id item <> "nope").
  { intros item [<- | [<- | []]]; simpl; discriminate. }
  split; [exact H|].
  apply (convert_missing_noop sample_env "nope" sample_state H).
Defined.

(** C2 fails as it is stated: on a store in which the id occurs twice,
    a conversion takes both items out of the inbox, not one. *)
Lemma convert_duplicate_ids :
  (List.find (has_id "a") (inbox duplicate_state)
     = Some (InboxItem.mk "a" "first" "thought" "new"
               "2023-11-14T22:00:00.000Z" "") /\
   length (inbox duplicate_state) = 2 /\
   length (inbox (convertInboxToTask sample_env "a" duplicate_state).1) = 0 /\
   length (inbox (convertInboxToIdea sample_env "a" duplicate_state).1) = 0) /\
  (* and the new id is the one of the source when the store already holds
     the value that [generateId] returns *)
  (Task.id <$> last (tasks (convertInboxToTask sample_env
                              "loyw3v284fzyo82mvyr" clash_state).1)
     = InboxItem.id <$> List.find (has_id "loyw3v284fzyo82mvyr")
                          (inbox clash_state) /\
   Idea.id <$> last (ideas (convertInboxToIdea sample_env
                              "loyw3v284fzyo82mvyr" clash_state).1)
     = InboxItem.id <$> List.find (has_id "loyw3v284fzyo82mvyr")
                          (inbox clash_state) /\
   List.find (has_id "loyw3v284fzyo82mvyr") (inbox clash_state) <> None).
Proof. vm_compute. repeat split. discriminate. Qed.

Lemma filter_negb_has_id (id : string) (l : list InboxItem.t)
    (i : InboxItem.t) :
  In i (List.filter (fun j => negb (has_id id j)) l)
  <-> In i l /\ InboxItem.id i <> id.
Proof.
  rewrite List.filter_In, negb_true_iff, <- not_true_iff_false, has_id_true.
  reflexivity.
Qed.

(** C2 (amended). When an inbox item carries the id, [convertInboxToTask]
    removes from the inbox every item that carries it, which is one item
    and shortens the inbox by one when the id occurs once; it appends one
    task with the text of the first such item, [completed = false],
    [priority = 'medium'], [dueDate = null], [project = null], an empty
    [context], the current time as [createdAt] and the generated id, which
    differs from the id of the source item whenever [generateId] returns
    another value.  [convertInboxToIdea] does the same with one idea of
    category ['general'], potential 2 and status ['new']. *)
Theorem convert_found (e : Env) (id : string) (s : State)
    (item : InboxItem.t) :
  List.find (has_id id) (inbox s) = Some item ->
  In item (inbox s) /\ InboxItem.id item = id /\
  (* to a task *)
  (forall i, In i (inbox (convertInboxToTask e id s).1)
             <-> In i (inbox s) /\ InboxItem.id i <> id) /\
  length (inbox (convertInboxToTask e id s).1) + occurrences id (inbox s)
    = length (inbox s) /\
  (occurrences id (inbox s) = 1 ->
   length (inbox (convertInboxToTask e id s).1) + 1 = length (inbox s)) /\
  tasks (convertInboxToTask e id s).1
    = tasks s ++ [Task.mk (generateId e) (InboxItem.text item) false "medium"
                    None None [] (isoNow e) Absent] /\
  (generateId e <> id ->
   forall k, last (tasks (convertInboxToTask e id s).1) = Some k ->
             Task.id k <> InboxItem.id item) /\
  (forall e0 : Env,
     InboxItem.id item = generateId e0 -> clock e0 <> clock e ->
     String.length (Js.toString36 (clock e0))
       = String.length (Js.toString36 (clock e)) ->
     generateId e <> id) /\
  projects (convertInboxToTask e id s).1 = projects s /\
  ideas (convertInboxToTask e id s).1 = ideas s /\
  contacts (convertInboxToTask e id s).1 = contacts s /\
  settings (convertInboxToTask e id s).1 = settings s /\
  (* to an idea *)
  (forall i, In i (inbox (convertInboxToIdea e id s).1)
             <-> In i (inbox s) /\ InboxItem.id i <> id) /\
  length (inbox (convertInboxToIdea e id s).1) + occurrences id (inbox s)
    = length (inbox s) /\
  (occurrences id (inbox s) = 1 ->
   length (inbox (convertInboxToIdea e id s).1) + 1 = length (inbox s)) /\
  ideas (convertInboxToIdea e id s).1
    = ideas s ++ [Idea.mk (generateId e) (InboxItem.text item) "general" 2%N
                    "new" (isoNow e)] /\
  (generateId e <> id ->
   forall k, last (ideas (convertInboxToIdea e id s).1) = Some k ->
             Idea.id k <> InboxItem.id item) /\
  projects (convertInboxToIdea e id s).1 = projects s /\
  tasks (convertInboxToIdea e id s).1 = tasks s /\
  contacts (convertInboxToIdea e id s).1 = contacts s /\
  settings (convertInboxToIdea e id s).1 = settings s.
Proof.
  intros Hfind. destruct (find_present _ _ _ Hfind) as [Hin Hid].
  apply has_id_true in Hid.
  unfold convertInboxToTask, convertInboxToIdea. rewrite Hfind. simpl.
  pose proof (length_filter_split (has_id id) (inbox s)) as Hlen.
  fold (occurrences id (inbox s)) in Hlen.
  split; [exact Hin|]. split; [exact Hid|].
  split; [intros i; apply filter_negb_has_id|].
  split; [exact Hlen|]. split; [intros H1; now rewrite <- Hlen, H1|].
  split; [reflexivity|].
  split.
  { intros Hfresh k. rewrite last_snoc. intros [= <-]. simpl. congruence. }
  split.
  { intros e0 He0 Hclock Hdigits. rewrite <- Hid, He0.
    now apply generateId_fresh. }
  do 4 (split; [reflexivity|]).
  split; [intros i; apply filter_negb_has_id|].
  split; [exact Hlen|]. split; [intros H1; now rewrite <- Hlen, H1|].
  split; [reflexivity|].
  split.
  { intros Hfresh k. rewrite last_snoc. intros [= <-]. simpl. congruence. }
  repeat split.
Qed.

Lemma convert_found_witness :
  List.find (has_id "lp1a2b3cxyz") (inbox sample_state) = Some sample_item /\
  length (inbox (convertInboxToTask sample_env "lp1a2b3cxyz" sample_state).1)
    + occurrences "lp1a2b3cxyz" (inbox sample_state)
    = length (inbox sample_state) /\
  tasks (convertInboxToTask sample_env "lp1a2b3cxyz" sample_state).1
    = tasks sample_state ++
      [Task.mk (generateId sample_env) (InboxItem.text sample_item) false
         "medium" None None [] (isoNow sample_env) Absent].
Proof.
  assert (H : List.find (has_id "lp1a2b3cxyz") (inbox sample_state)
              = Some sample_item) by reflexivity.
  pose proof (convert_found sample_env "lp1a2b3cxyz" sample_state sample_item H)
    as T.
  split; [exact H|].
  split; [exact (proj1 (proj2 (proj2 (proj2 T))))|].
  exact (proj1 (proj2 (proj2 (proj2 (proj2 (proj2 T)))))).
Defined.

(** [classifyInboxItem] runs [classify] on the item that [find] returns,
    in its slot. *)
Lemma classifyInboxItem_found (page id : string) (s : State)
    (item : InboxItem.t) :
  List.find (has_id id) (inbox s) = Some item ->
  exists n : nat,
    inbox s !! n = Some item /\
    inbox (classifyInboxItem page id s).1 !! n = Some (classify item).
Proof.
  intros Hfind. unfold classifyInboxItem. rewrite Hfind. simpl.
  clear page. revert Hfind. generalize (inbox s) as l.
  induction l as [|x l IH]; simpl; [discriminate|].
  destruct (has_id id x) eqn:Hx.
  - intros [= ->]. exists 0%nat. split; reflexivity.
  - intros H. destruct (IH H) as [n [H1 H2]]. exists (S n). now split.
Qed.

(** The item that [addToInbox] appends starts with an empty summary and
    the status ['new']; its classification is scheduled. *)
Lemma addToInbox_item (e : Env) (page : string) (text : option string)
    (type : option string) (input : option string) (s : State) :
  inbox (addToInbox e page text type input s).1 = inbox s \/
  exists itemText : string,
    itemText <> "" /\
    inbox (addToInbox e page text type input s).1
    = inbox s ++ [InboxItem.mk (generateId e) itemText
                    (default "thought" type) "new" (isoNow e) ""] /\
    last (addToInbox e page text type input s).2
    = Some (SetTimeoutClassify (generateId e)).
Proof.
  unfold addToInbox.
  set (itemText := match text with
                   | Some t => if Js.truthy t then t else _
                   | None => _
                   end).
  destruct (Js.truthy itemText) eqn:E; simpl; [|now left].
  right. exists itemText. split.
  - intros H. rewrite H in E. discriminate.
  - split; [now destruct type|]. destruct (String.eqb page "inbox");
      [reflexivity|]. destruct (String.eqb page "dashboard"); reflexivity.
Qed.

(** ** Tasks: completion time *)

(** The element that [find] returns sits in a slot, the first that
    satisfies [p], and the update puts [f] of it there. *)
Lemma update_first_found {A} (p : A -> bool) (f : A -> A) (l : list A)
    (x : A) :
  List.find p l = Some x ->
  exists n : nat,
    l !! n = Some x /\
    update_first p f l !! n = Some (f x) /\
    forall (m : nat) (y : A), m < n -> l !! m = Some y -> p y = false.
Proof.
  induction l as [|a l IH]; simpl; [discriminate|].
  destruct (p a) eqn:Ha.
  - intros [= ->]. exists 0. repeat split. intros m y Hm. lia.
  - intros H. destruct (IH H) as [n [H1 [H2 H3]]]. exists (S n).
    repeat split; auto. intros [|m] y Hm Hy; simpl in Hy.
    + now injection Hy as <-.
    + apply (H3 m); [lia | exact Hy].
Qed.

Lemma Forall_update_first {A} (P : A -> Prop) (p : A -> bool) (f : A -> A)
    (l : list A) :
  (forall x, P x -> P (f x)) -> Forall P l -> Forall P (update_first p f l).
Proof.
  intros Hf. induction 1 as [|x l Hx Hl IH]; simpl; [constructor|].
  destruct (p x); constructor; auto.
Qed.

Lemma Forall_bool_filter {A} (P : A -> Prop) (p : A -> bool) (l : list A) :
  Forall P l -> Forall P (List.filter p l).
Proof.
  induction 1 as [|x l Hx Hl IH]; simpl; [constructor|].
  destruct (p x); [constructor|]; auto.
Qed.

Lemma Forall_snoc {A} (P : A -> Prop) (l : list A) (x : A) :
  Forall P l -> P x -> Forall P (l ++ [x]).
Proof. intros Hl Hx. apply Forall_app. split; [exact Hl | now constructor]. Qed.

Lemma newTask_inv (e : Env) (text : string) : task_inv (newTask e text).
Proof. unfold task_inv. simpl. split; discriminate. Qed.

Lemma toggle_inv (e : Env) (k : Task.t) : task_inv (toggle e k).
Proof.
  unfold task_inv, toggle, completedAt_set. simpl.
  destruct (Task.completed k); simpl; split; auto; discriminate.
Qed.

Lemma set_text_inv (v : string) (k : Task.t) :
  task_inv k -> task_inv (Task.set_text v k).
Proof. unfold task_inv, completedAt_set. now simpl. Qed.

(** C8. A task has its [completedAt] set exactly when it is completed,
    and every task operation keeps it so.  Quick add, the modal and the
    conversion from the inbox append one task, which is not completed and
    has no [completedAt], whenever they have a text to add.  [toggleTask]
    replaces the task that it finds, the first that carries the id, by
    the task with [completed] negated and with [completedAt] set to the
    current time when the task becomes completed and to [null] when it
    becomes active; it leaves the other tasks alone.  Deleting and
    editing change neither field. *)
Theorem completedAt_iff_completed (e : Env) (page id input : string)
    (answer : option string) (s : State) :
  (* creation *)
  (forall text : string,
     Task.completed (newTask e text) = false /\
     Task.completedAt (newTask e text) = Absent) /\
  (tasks (addQuickTask e input s).1 = tasks s \/
   exists text, tasks (addQuickTask e input s).1 = tasks s ++ [newTask e text]) /\
  (tasks (showAddTaskModal e answer s).1 = tasks s \/
   exists text,
     tasks (showAddTaskModal e answer s).1 = tasks s ++ [newTask e text]) /\
  (tasks (convertInboxToTask e id s).1 = tasks s \/
   exists text,
     tasks (convertInboxToTask e id s).1 = tasks s ++ [newTask e text]) /\
  (Js.trim input <> "" ->
   tasks (addQuickTask e input s).1
   = tasks s ++ [newTask e (Js.trim input)]) /\
  (forall t : string,
     answer = Some t -> Js.trim t <> "" ->
     tasks (showAddTaskModal e answer s).1
     = tasks s ++ [newTask e (Js.trim t)]) /\
  (forall item : InboxItem.t,
     List.find (has_id id) (inbox s) = Some item ->
     tasks (convertInboxToTask e id s).1
     = tasks s ++ [newTask e (InboxItem.text item)]) /\
  (* toggling *)
  (forall k : Task.t,
     Task.completed (toggle e k) = negb (Task.completed k) /\
     (Task.completed k = false ->
      Task.completedAt (toggle e k) = Present (isoNow e)) /\
     (Task.completed k = true -> Task.completedAt (toggle e k) = Null) /\
     task_inv (toggle e k)) /\
  (forall task : Task.t,
     List.find (task_has_id id) (tasks s) = Some task ->
     exists n : nat,
       tasks s !! n = Some task /\
       tasks (toggleTask e page id s).1 !! n = Some (toggle e task) /\
       Task.completed (toggle e task) = negb (Task.completed task) /\
       Task.completedAt (toggle e task)
       = (if Task.completed task then Null else Present (isoNow e)) /\
       forall (m : nat) (other : Task.t),
         m < n -> tasks s !! m = Some other -> Task.id other <> id) /\
  length (tasks (toggleTask e page id s).1) = length (tasks s) /\
  (forall (n : nat) (k : Task.t),
     tasks s !! n = Some k ->
     tasks (toggleTask e page id s).1 !! n = Some k \/
     (tasks (toggleTask e page id s).1 !! n = Some (toggle e k) /\
      Task.id k = id /\
      forall (m : nat) (other : Task.t),
        m < n -> tasks s !! m = Some other -> Task.id other <> id)) /\
  (* the invariant is kept *)
  (Forall task_inv (tasks s) ->
   Forall task_inv (tasks (addQuickTask e input s).1) /\
   Forall task_inv (tasks (showAddTaskModal e answer s).1) /\
   Forall task_inv (tasks (convertInboxToTask e id s).1) /\
   Forall task_inv (tasks (toggleTask e page id s).1) /\
   Forall task_inv (tasks (deleteTask id s).1) /\
   Forall task_inv (tasks (editTask answer id s).1)).
Proof.
  split; [intros text; split; reflexivity|].
  split.
  { unfold addQuickTask. destruct (negb _); simpl; eauto. }
  split.
  { unfold showAddTaskModal. destruct answer as [text|]; [|now left].
    destruct (_ && _); simpl; eauto. }
  split.
  { unfold convertInboxToTask.
    destruct (List.find _ _); simpl; eauto. }
  split.
  { intros H. unfold addQuickTask. now rewrite (truthy_true _ H). }
  split.
  { intros t -> H. unfold showAddTaskModal.
    assert (Ht : t <> "") by (intros ->; now apply H).
    now rewrite (truthy_true _ H), (truthy_true _ Ht). }
  split.
  { intros item H. unfold convertInboxToTask. now rewrite H. }
  split.
  { intros k. split; [reflexivity|]. split; [|split].
    - intros H. unfold toggle. simpl. now rewrite H.
    - intros H. unfold toggle. simpl. now rewrite H.
    - apply toggle_inv. }
  split.
  { intros task Hfind. unfold toggleTask. rewrite Hfind.
    cbn [fst tasks set_tasks].
    destruct (update_first_found (task_has_id id) (toggle e) _ _ Hfind)
      as [n [H1 [H2 H3]]].
    exists n. split; [exact H1|]. split; [exact H2|].
    split; [reflexivity|]. split.
    { unfold toggle. simpl. now destruct (Task.completed task). }
    intros m other Hm Hother Hid. apply String.eqb_eq in Hid.
    unfold task_has_id in H3. rewrite (H3 m other) in Hid; auto.
    discriminate. }
  split.
  { unfold toggleTask. destruct (List.find _ _); [|reflexivity].
    cbn [fst tasks set_tasks]. apply length_update_first. }
  split.
  { intros n k Hn. unfold toggleTask.
    destruct (List.find _ _) as [found|]; simpl; [|now left].
    destruct (update_first_lookup (task_has_id id) (toggle e) _ _ _ Hn)
      as [H | [H1 [H2 H3]]]; [now left|].
    right. split; [exact H1|]. split; [now apply String.eqb_eq|].
    intros m other Hm Hother Hid. apply String.eqb_eq in Hid.
    unfold task_has_id in H3. rewrite (H3 m other) in Hid; auto.
    discriminate. }
  intros Hinv. repeat split.
  - unfold addQuickTask. destruct (negb _); simpl; auto.
    apply Forall_snoc; auto using newTask_inv.
  - unfold showAddTaskModal. destruct answer as [text|]; auto.
    destruct (_ && _); simpl; auto.
    apply Forall_snoc; auto using newTask_inv.
  - unfold convertInboxToTask. destruct (List.find _ _); simpl; auto.
    apply Forall_snoc; auto using newTask_inv.
  - unfold toggleTask. destruct (List.find _ _); simpl; auto.
    apply Forall_update_first; auto using toggle_inv.
  - unfold deleteTask. simpl. now apply Forall_bool_filter.
  - unfold editTask. destruct (List.find _ _); auto.
    destruct answer as [text|]; auto. destruct (_ && _); simpl; auto.
    apply Forall_update_first; auto using set_text_inv.
Qed.

Lemma completedAt_iff_completed_witness :
  List.find (task_has_id "loyw3v28aaa") (tasks tasks_state) = Some done_task /\
  Forall task_inv (tasks tasks_state) /\
  (exists n : nat,
     tasks tasks_state !! n = Some done_task /\
     tasks (toggleTask sample_env "tasks" "loyw3v28aaa" tasks_state).1 !! n
     = Some (toggle sample_env done_task) /\
     Task.completed (toggle sample_env done_task)
     = negb (Task.completed done_task) /\
     Task.completedAt (toggle sample_env done_task)
     = (if Task.completed done_task then Null
        else Present (isoNow sample_env)) /\
     forall (m : nat) (other : Task.t),
       m < n -> tasks tasks_state !! m = Some other ->
       Task.id other <> "loyw3v28aaa") /\
  Forall task_inv
    (tasks (toggleTask sample_env "tasks" "loyw3v28aaa" tasks_state).1).
Proof.
  assert (Hf : List.find (task_has_id "loyw3v28aaa") (tasks tasks_state)
               = Some done_task) by reflexivity.
  assert (H : Forall task_inv (tasks tasks_state)).
  { repeat constructor; discriminate. }
  pose proof (completedAt_iff_completed sample_env "tasks" "loyw3v28aaa" ""
                None tasks_state) as T.
  destruct T as (_ & _ & _ & _ & _ & _ & _ & _ & T9 & _ & _ & T12).
  split; [exact Hf|]. split; [exact H|]. split.
  - exact (T9 done_task Hf).
  - exact (proj1 (proj2 (proj2 (proj2 (T12 H))))).
Defined.

(** ** Persistence *)

Section Persistence.
Context {number : Type}.
Variable parse : string -> option (json number).
(** [JSON.parse('')] throws. *)
Hypothesis parse_empty : parse "" = None.

Local Abbreviation value := (json number).
Local Abbreviation object := (gmap string (json number)).

Lemma parsed_nonempty (s : string) (v : value) : parse s = Some v -> s <> "".
Proof. intros H ->. rewrite parse_empty in H. discriminate. Qed.

(** The merge: a key of the spread value wins, a key it lacks comes from
    the defaults. *)
Lemma spread_lookup (d : object) (v : value) (k : string) :
  (Store.ownProperties v !! k = None -> Store.spread d v !! k = d !! k) /\
  (forall x, Store.ownProperties v !! k = Some x ->
             Store.spread d v !! k = Some x).
Proof.
  unfold Store.spread. split.
  - intros H. now apply lookup_union_r.
  - intros x H. now apply lookup_union_Some_l.
Qed.

Lemma spread_complete (d : object) (v : value) (k : string) :
  is_Some (d !! k) -> is_Some (Store.spread d v !! k).
Proof.
  intros Hd. destruct (Store.ownProperties v !! k) as [x|] eqn:E.
  - rewrite (proj2 (spread_lookup d v k) x E). eauto.
  - now rewrite (proj1 (spread_lookup d v k) E).
Qed.

Lemma loadData_cases (stored : getItem_result) :
  (Store.loadData parse stored).1 = Store.defaultData \/
  (exists s v, stored = GetString s /\ parse s = Some v /\
               (Store.loadData parse stored).1
               = Store.spread Store.defaultData v).
Proof.
  unfold Store.loadData.
  destruct stored as [| |s]; simpl; auto.
  destruct (Js.truthy s); simpl; auto.
  destruct (parse s) as [v|] eqn:E; simpl; [|now left].
  right. exists s, v. auto.
Qed.

(** C3. [loadData] returns a store in every case.  When the stored
    value is absent, cannot be read or cannot be parsed, the store is the
    default one: the five collections are there and are empty, and the
    settings hold [darkMode] and [apiKey].  When the stored value is
    parsed, the keys it lacks come from the defaults and the keys it has,
    known or not, keep their stored values.  Every key of the defaults is
    present in what [loadData] returns. *)
Theorem loadData_defaults_and_merge (stored : getItem_result) :
  (exists (d : object) (log : list Log), Store.loadData parse stored = (d, log)) /\
  (forall k : string,
     is_Some (Store.defaultData (number := number) !! k) ->
     is_Some ((Store.loadData parse stored).1 !! k)) /\
  ((stored = GetThrows \/ stored = GetNull \/
    exists s, stored = GetString s /\ parse s = None) ->
   (Store.loadData parse stored).1 = Store.defaultData) /\
  (Store.defaultData (number := number) !! "inbox" = Some (JArray []) /\
   Store.defaultData (number := number) !! "projects" = Some (JArray []) /\
   Store.defaultData (number := number) !! "tasks" = Some (JArray []) /\
   Store.defaultData (number := number) !! "ideas" = Some (JArray []) /\
   Store.defaultData (number := number) !! "contacts" = Some (JArray []) /\
   exists m : object,
     Store.defaultData !! "settings" = Some (JObject m) /\
     m !! "darkMode" = Some (JBool true) /\
     m !! "apiKey" = Some (JString "")) /\
  (forall (s : string) (m : object),
     stored = GetString s -> parse s = Some (JObject m) ->
     forall k : string,
       (m !! k = None ->
        (Store.loadData parse stored).1 !! k = Store.defaultData !! k) /\
       (forall x : value,
          m !! k = Some x -> (Store.loadData parse stored).1 !! k = Some x)) /\
  (forall (s : string) (v : value),
     stored = GetString s -> parse s = Some v ->
     (Store.loadData parse stored).1 = Store.spread Store.defaultData v).
Proof.
  assert (Hparsed : forall s v, stored = GetString s -> parse s = Some v ->
            (Store.loadData parse stored).1 = Store.spread Store.defaultData v).
  { intros s v -> Hv. unfold Store.loadData.
    rewrite (truthy_true s (parsed_nonempty s v Hv)), Hv. reflexivity. }
  split; [destruct (Store.loadData parse stored) as [d log]; eauto|].
  split.
  { intros k Hk. destruct (loadData_cases stored) as [-> | [s [v [_ [_ ->]]]]];
      [exact Hk | now apply spread_complete]. }
  split.
  { intros [-> | [-> | [s [-> Hs]]]]; try reflexivity.
    unfold Store.loadData. rewrite Hs. now destruct (Js.truthy s). }
  split.
  { repeat (split; [reflexivity|]).
    eexists. split; [reflexivity|]. split; reflexivity. }
  split; [|exact Hparsed].
  intros s m Hs Hm k. rewrite (Hparsed s (JObject m) Hs Hm).
  exact (spread_lookup Store.defaultData (JObject m) k).
Qed.


End Persistence.

Lemma sample_parse_empty : sample_parse "" = None.
Proof. reflexivity. Qed.

Lemma loadData_defaults_and_merge_witness :
  sample_parse "" = None /\
  sample_parse theme_document
    = Some (JObject (list_to_map [("theme", JNull); ("inbox", JArray [JNull])])) /\
  (Store.loadData sample_parse (GetString theme_document)).1 !! "theme"
    = Some JNull /\
  (Store.loadData sample_parse (GetString theme_document)).1 !! "inbox"
    = Some (JArray [JNull]) /\
  (Store.loadData sample_parse (GetString theme_document)).1 !! "tasks"
    = Store.defaultData !! "tasks".
Proof.
  pose proof (proj1 (proj2 (proj2 (proj2 (proj2
    (loadData_defaults_and_merge sample_parse sample_parse_empty
       (GetString theme_document))))))
    theme_document
    (list_to_map [("theme", JNull); ("inbox", JArray [JNull])])
    eq_refl eq_refl) as T.
  split; [reflexivity|]. split; [reflexivity|].
  split; [exact (proj2 (T "theme") JNull eq_refl)|].
  split; [exact (proj2 (T "inbox") (JArray [JNull]) eq_refl)|].
  exact (proj1 (T "tasks") eq_refl).
Defined.


(** ** Due status *)

Section DueStatus.
Import DateModel.
Local Open Scope Z_scope.
Variable tza : Z -> bool -> Z.
Variable dateParse : string -> option Z.

Lemma setHoursZero_in_range (t : Z) :
  midnight_in_range tza t ->
  setHoursZero tza (Some t) = Some (UTC tza (localDay tza t * msPerDay)).
Proof.
  unfold midnight_in_range, setHoursZero, TimeClip, localDay. intros H.
  rewrite Z.add_0_r. apply Z.leb_le in H. now rewrite H.
Qed.

Lemma getDueStatus_parsed (now t : Z) (d : string) :
  d <> "" -> dateParse d = Some t ->
  midnight_in_range tza t -> midnight_in_range tza now ->
  getDueStatus tza dateParse now (Some d)
  = statusOfDayDifference
      (UTC tza (localDay tza t * msPerDay)
       - UTC tza (localDay tza now * msPerDay)).
Proof.
  intros Hd Hp Ht Hn. unfold getDueStatus.
  rewrite (truthy_true d Hd), Hp. cbn [negb].
  rewrite (setHoursZero_in_range t Ht), (setHoursZero_in_range now Hn).
  reflexivity.
Qed.

Lemma getDueStatus_no_midnight (now t : Z) (d : string) :
  dateParse d = Some t ->
  ~ midnight_in_range tza t \/ ~ midnight_in_range tza now ->
  getDueStatus tza dateParse now (Some d) = "".
Proof.
  intros Hp Hout. unfold getDueStatus.
  destruct (Js.truthy d); cbn [negb]; [|reflexivity].
  rewrite Hp. unfold setHoursZero, TimeClip, midnight_in_range, localDay in *.
  rewrite !Z.add_0_r.
  destruct Hout as [H | H]; apply Z.leb_nle in H; rewrite H;
    [reflexivity|].
  match goal with
  | |- context [if ?b then _ else _] => destruct b
  end; reflexivity.
Qed.

Lemma zone_ordered_midnights (t now : Z) :
  zone_ordered tza -> midnights_ordered tza t now.
Proof. intros Hz. split; apply Hz. Qed.

(** C4 (amended). [getDueStatus] returns the empty status for an absent
    or empty due date, for a due date that [Date] does not parse, and
    when the local midnight of the due date or of the current day is not
    a time value that a [Date] can hold.  Otherwise, when the local
    midnights of the two days are in the order of the days, as they are
    in a zone whose local midnights are in order, it compares the local
    calendar day of the due date with the local calendar day of the
    current time: ['overdue'] when the difference in days is negative,
    ['today'] when it is zero, the empty status when it is positive.  A
    due date on the current calendar day gives ['today'] whatever its
    time of day. *)
Theorem getDueStatus_by_calendar_day (now : Z) :
  getDueStatus tza dateParse now None = "" /\
  getDueStatus tza dateParse now (Some "") = "" /\
  (forall d : string,
     dateParse d = None -> getDueStatus tza dateParse now (Some d) = "") /\
  (forall (d : string) (t : Z),
     dateParse d = Some t ->
     ~ midnight_in_range tza t \/ ~ midnight_in_range tza now ->
     getDueStatus tza dateParse now (Some d) = "") /\
  (forall (d : string) (t : Z),
     d <> "" -> dateParse d = Some t ->
     midnight_in_range tza t -> midnight_in_range tza now ->
     (midnights_ordered tza t now ->
      getDueStatus tza dateParse now (Some d)
      = statusOfDayDifference (localDay tza t - localDay tza now)) /\
     (midnights_ordered tza t now -> localDay tza t < localDay tza now ->
      getDueStatus tza dateParse now (Some d) = "overdue") /\
     (localDay tza t = localDay tza now ->
      getDueStatus tza dateParse now (Some d) = "today") /\
     (midnights_ordered tza t now -> localDay tza now < localDay tza t ->
      getDueStatus tza dateParse now (Some d) = "")) /\
  (zone_ordered tza -> forall t : Z, midnights_ordered tza t now).
Proof.
  split; [reflexivity|]. split; [reflexivity|].
  split.
  { intros d Hp. unfold getDueStatus. rewrite Hp.
    now destruct (Js.truthy d). }
  split; [intros d t; apply getDueStatus_no_midnight|].
  split; [|intros Hz t; now apply zone_ordered_midnights].
  intros d t Hd Hp Ht Hn.
  rewrite (getDueStatus_parsed now t d Hd Hp Ht Hn).
  unfold statusOfDayDifference.
  assert (Hlt : midnights_ordered tza t now ->
                localDay tza t < localDay tza now ->
                UTC tza (localDay tza t * msPerDay)
                - UTC tza (localDay tza now * msPerDay) < 0).
  { intros [Hz _] H. specialize (Hz H). lia. }
  assert (Hgt : midnights_ordered tza t now ->
                localDay tza now < localDay tza t ->
                0 < UTC tza (localDay tza t * msPerDay)
                    - UTC tza (localDay tza now * msPerDay)).
  { intros [_ Hz] H. specialize (Hz H). lia. }
  assert (Heq : localDay tza t = localDay tza now ->
                UTC tza (localDay tza t * msPerDay)
                - UTC tza (localDay tza now * msPerDay) = 0).
  { intros ->. lia. }
  split; [|split; [|split]].
  - intros Hz.
    destruct (Z.lt_trichotomy (localDay tza t) (localDay tza now))
      as [H | [H | H]].
    + pose proof (Hlt Hz H) as H1.
      apply Z.ltb_lt in H1. rewrite H1.
      assert (H2 : localDay tza t - localDay tza now < 0) by lia.
      apply Z.ltb_lt in H2. now rewrite H2.
    + rewrite (Heq H), H, Z.sub_diag. reflexivity.
    + pose proof (Hgt Hz H) as H1.
      assert (E1 : (UTC tza (localDay tza t * msPerDay)
                    - UTC tza (localDay tza now * msPerDay) <? 0) = false)
        by (apply Z.ltb_ge; lia).
      assert (E2 : (UTC tza (localDay tza t * msPerDay)
                    - UTC tza (localDay tza now * msPerDay) =? 0) = false)
        by (apply Z.eqb_neq; lia).
      assert (E3 : (localDay tza t - localDay tza now <? 0) = false)
        by (apply Z.ltb_ge; lia).
      assert (E4 : (localDay tza t - localDay tza now =? 0) = false)
        by (apply Z.eqb_neq; lia).
      now rewrite E1, E2, E3, E4.
  - intros Hz H. pose proof (Hlt Hz H) as H1.
    apply Z.ltb_lt in H1. now rewrite H1.
  - intros H. now rewrite (Heq H).
  - intros Hz H. pose proof (Hgt Hz H) as H1.
    assert (E1 : (UTC tza (localDay tza t * msPerDay)
                  - UTC tza (localDay tza now * msPerDay) <? 0) = false)
      by (apply Z.ltb_ge; lia).
    assert (E2 : (UTC tza (localDay tza t * msPerDay)
                  - UTC tza (localDay tza now * msPerDay) =? 0) = false)
      by (apply Z.eqb_neq; lia).
    now rewrite E1, E2.
Qed.

End DueStatus.

(** C4 fails as it is stated: for the first instant that a [Date] can
    hold, in a zone one hour east of UTC, the calendar day is far in the
    past, the difference in days is negative, and the status is empty,
    not ['overdue']: the local midnight of that day is before the first
    instant, so [setHours] leaves an invalid date. *)
Lemma getDueStatus_before_first_instant :
  edge_dateParse "-271821-04-20T00:00:00.000Z" = Some (-8640000000000000)%Z /\
  (DateModel.localDay sample_tza (-8640000000000000)
   - DateModel.localDay sample_tza 1700000000000 < 0)%Z /\
  DateModel.getDueStatus sample_tza edge_dateParse 1700000000000
    (Some "-271821-04-20T00:00:00.000Z") = "" /\
  DateModel.getDueStatus sample_tza edge_dateParse 1700000000000
    (Some "-271821-04-20T00:00:00.000Z") <> "overdue".
Proof.
  split; [reflexivity|]. split; [reflexivity|].
  split; [reflexivity|]. vm_compute. discriminate.
Qed.

Lemma getDueStatus_by_calendar_day_witness :
  DateModel.midnights_ordered sample_tza 1700000000000 1700100000000 /\
  sample_dateParse "2023-11-14T22:13:20.000Z" = Some 1700000000000%Z /\
  DateModel.midnight_in_range sample_tza 1700000000000 /\
  DateModel.midnight_in_range sample_tza 1700100000000 /\
  (DateModel.localDay sample_tza 1700000000000
   < DateModel.localDay sample_tza 1700100000000)%Z /\
  DateModel.getDueStatus sample_tza sample_dateParse 1700100000000
    (Some "2023-11-14T22:13:20.000Z") = "overdue".
Proof.
  assert (Hz : DateModel.midnights_ordered sample_tza 1700000000000
                 1700100000000).
  { split; [intros _; vm_compute; reflexivity
           | intros H; vm_compute in H; discriminate]. }
  assert (H1 : DateModel.midnight_in_range sample_tza 1700000000000)
    by (vm_compute; discriminate).
  assert (H2 : DateModel.midnight_in_range sample_tza 1700100000000)
    by (vm_compute; discriminate).
  assert (H3 : (DateModel.localDay sample_tza 1700000000000
                < DateModel.localDay sample_tza 1700100000000)%Z)
    by (vm_compute; reflexivity).
  split; [exact Hz|]. split; [reflexivity|]. split; [exact H1|].
  split; [exact H2|]. split; [exact H3|].
  refine (proj1 (proj2 (proj1 (proj2 (proj2 (proj2 (proj2
    (getDueStatus_by_calendar_day sample_tza sample_dateParse 1700100000000)))))
      "2023-11-14T22:13:20.000Z" 1700000000000%Z _ eq_refl H1 H2)) Hz H3).
  discriminate.
Defined.

(** * Further properties *)

(** ** Filters *)

Lemma filter_negb_In {A} (p : A -> bool) (l : list A) (x : A) :
  In x (List.filter (fun y => negb (p y)) l) <-> In x l /\ p x = false.
Proof. now rewrite List.filter_In, negb_true_iff. Qed.

Lemma filter_idem {A} (q : A -> bool) (l : list A) :
  List.filter q (List.filter q l) = List.filter q l.
Proof.
  induction l as [|x l IH]; simpl; [reflexivity|].
  destruct (q x) eqn:E; simpl; [now rewrite E, IH | exact IH].
Qed.

Lemma filter_all {A} (q : A -> bool) (l : list A) :
  (forall x, In x l -> q x = true) -> List.filter q l = l.
Proof.
  induction l as [|x l IH]; intros H; simpl; [reflexivity|].
  rewrite (H x) by (now left). f_equal. apply IH. intros y Hy. apply H.
  now right.
Qed.

Lemma filter_sublist {A} (q : A -> bool) (l : list A) :
  sublist (List.filter q l) l.
Proof.
  induction l as [|x l IH]; simpl; [constructor|].
  destruct (q x); now constructor.
Qed.

(** ** Deletions *)

(** X1. [deleteInboxItem] takes out of the inbox every item that carries
    the id and keeps the others in their order; the inbox gets shorter by
    the number of such items; a second deletion changes nothing more; the
    other collections are the same.  It saves and announces ['Deleted']
    also when no item carries the id, and the state is then the same. *)
Theorem deleteInboxItem_removes (id : string) (s : State) :
  (forall i, In i (inbox (deleteInboxItem id s).1)
             <-> In i (inbox s) /\ InboxItem.id i <> id) /\
  sublist (inbox (deleteInboxItem id s).1) (inbox s) /\
  length (inbox (deleteInboxItem id s).1) + occurrences id (inbox s)
    = length (inbox s) /\
  (deleteInboxItem id (deleteInboxItem id s).1).1 = (deleteInboxItem id s).1 /\
  projects (deleteInboxItem id s).1 = projects s /\
  tasks (deleteInboxItem id s).1 = tasks s /\
  ideas (deleteInboxItem id s).1 = ideas s /\
  contacts (deleteInboxItem id s).1 = contacts s /\
  settings (deleteInboxItem id s).1 = settings s /\
  ((forall i, In i (inbox s) -> InboxItem.id i <> id) ->
   deleteInboxItem id s
   = (s, [SaveData s; RenderInbox; UpdateInboxBadge; ShowToast Deleted info])).
Proof.
  unfold deleteInboxItem. cbn [fst inbox set_inbox projects tasks ideas
                               contacts settings].
  split; [intros i; apply filter_negb_has_id|].
  split; [apply filter_sublist|].
  split; [apply (length_filter_split (has_id id))|].
  split; [unfold set_inbox; cbn [inbox projects tasks ideas contacts settings];
          now rewrite filter_idem|].
  do 5 (split; [reflexivity|]).
  intros Hno.
  assert (E : List.filter (fun i => negb (has_id id i)) (inbox s) = inbox s).
  { apply filter_all. intros x Hx. apply negb_true_iff, not_true_is_false.
    rewrite has_id_true. now apply Hno. }
  rewrite E. now destruct s.
Qed.

Lemma deleteInboxItem_removes_witness :
  (forall i, In i (inbox sample_state) -> InboxItem.id i <> "nope") /\
  deleteInboxItem "nope" sample_state
  = (sample_state, [SaveData sample_state; RenderInbox; UpdateInboxBadge;
                    ShowToast Deleted info]).
Proof.
  assert (H : forall i, In i (inbox sample_state) -> InboxItem.id i <> "nope").
  { intros i [<- | [<- | []]]; simpl; discriminate. }
  split; [exact H|].
  exact (proj2 (proj2 (proj2 (proj2 (proj2 (proj2 (proj2 (proj2 (proj2
    (deleteInboxItem_removes "nope" sample_state))))))))) H).
Defined.

(** X2. [deleteTask] and [deleteIdea] take out every task, or idea, that
    carries the id, keep the others in their order and leave the rest of
    the state; a second deletion changes nothing more. *)
Theorem deleteTask_deleteIdea_remove (id : string) (s : State) :
  (forall k, In k (tasks (deleteTask id s).1)
             <-> In k (tasks s) /\ Task.id k <> id) /\
  sublist (tasks (deleteTask id s).1) (tasks s) /\
  (deleteTask id (deleteTask id s).1).1 = (deleteTask id s).1 /\
  inbox (deleteTask id s).1 = inbox s /\
  ideas (deleteTask id s).1 = ideas s /\
  projects (deleteTask id s).1 = projects s /\
  contacts (deleteTask id s).1 = contacts s /\
  (forall i, In i (ideas (deleteIdea id s).1)
             <-> In i (ideas s) /\ Idea.id i <> id) /\
  sublist (ideas (deleteIdea id s).1) (ideas s) /\
  (deleteIdea id (deleteIdea id s).1).1 = (deleteIdea id s).1 /\
  inbox (deleteIdea id s).1 = inbox s /\
  tasks (deleteIdea id s).1 = tasks s /\
  projects (deleteIdea id s).1 = projects s /\
  contacts (deleteIdea id s).1 = contacts s.
Proof.
  unfold deleteTask, deleteIdea.
  cbn [fst inbox set_tasks set_ideas projects tasks ideas contacts settings].
  split.
  { intros k. rewrite filter_negb_In. unfold task_has_id.
    now rewrite <- not_true_iff_false, String.eqb_eq. }
  split; [apply filter_sublist|].
  split; [unfold set_tasks; cbn [inbox projects tasks ideas contacts settings];
          now rewrite filter_idem|].
  do 4 (split; [reflexivity|]).
  split.
  { intros i. rewrite filter_negb_In.
    now rewrite <- not_true_iff_false, String.eqb_eq. }
  split; [apply filter_sublist|].
  split; [unfold set_ideas; cbn [inbox projects tasks ideas contacts settings];
          now rewrite filter_idem|].
  repeat split.
Qed.

(** ** Trimming *)

Lemma trimStart_first (s : string) (c : ascii) :
  first_unit (Js.trimStart s) = Some c -> Js.is_space c = false.
Proof.
  induction s as [|a s IH]; simpl; [discriminate|].
  destruct (Js.is_space a) eqn:E; [exact IH|].
  simpl. now intros [= <-].
Qed.

Lemma trimEnd_first (s : string) (c : ascii) :
  first_unit (Js.trimEnd s) = Some c -> first_unit s = Some c.
Proof.
  destruct s as [|a s]; simpl; [discriminate|].
  destruct (Js.trimEnd s); [destruct (Js.is_space a)|]; simpl;
    auto; discriminate.
Qed.

Lemma trimEnd_last (s : string) (c : ascii) :
  last_unit (Js.trimEnd s) = Some c -> Js.is_space c = false.
Proof.
  induction s as [|a s IH]; simpl; [discriminate|].
  destruct (Js.trimEnd s) as [|b r] eqn:E.
  - destruct (Js.is_space a) eqn:Ea; simpl; [discriminate|].
    now intros [= <-].
  - exact IH.
Qed.

Lemma trim_trimmed (s : string) : trimmed (Js.trim s).
Proof.
  unfold trimmed, Js.trim. split; intros c H.
  - apply trimEnd_first in H. now apply trimStart_first in H.
  - now apply trimEnd_last in H.
Qed.

Lemma trimEnd_idem (s : string) : Js.trimEnd (Js.trimEnd s) = Js.trimEnd s.
Proof.
  induction s as [|a s IH]; [reflexivity|].
  cbn [Js.trimEnd]. destruct (Js.trimEnd s) as [|b r] eqn:E.
  - destruct (Js.is_space a) eqn:Ea; [reflexivity|].
    cbn [Js.trimEnd]. now rewrite Ea.
  - change (Js.trimEnd (String a (String b r))) with
      (match Js.trimEnd (String b r) with
       | EmptyString =>
           if Js.is_space a then EmptyString else String a EmptyString
       | r' => String a r'
       end).
    now rewrite IH.
Qed.

Lemma trimStart_id (s : string) :
  (forall c, first_unit s = Some c -> Js.is_space c = false) ->
  Js.trimStart s = s.
Proof.
  destruct s as [|a s]; [reflexivity|]. intros H. simpl.
  now rewrite (H a eq_refl).
Qed.

Lemma trim_idem (s : string) : Js.trim (Js.trim s) = Js.trim s.
Proof.
  unfold Js.trim at 1. rewrite trimStart_id by apply trim_trimmed.
  unfold Js.trim. apply trimEnd_idem.
Qed.

Lemma truthy_false (s : string) : Js.truthy s = false <-> s = "".
Proof. unfold Js.truthy. now rewrite negb_false_iff, String.eqb_eq. Qed.

Lemma blank_iff (answer : option string) :
  blank answer = true
  <-> forall name, answer = Some name -> Js.trim name = "".
Proof.
  destruct answer as [name|]; simpl.
  - rewrite orb_true_iff, !negb_true_iff, !truthy_false. split.
    + intros [-> | H] n [= <-]; [reflexivity | exact H].
    + intros H. right. now apply H.
  - split; [intros _ n; discriminate | reflexivity].
Qed.

Lemma not_blank (name : string) :
  blank (Some name) = false -> Js.trim name <> "".
Proof.
  intros H E. assert (B : blank (Some name) = true).
  { apply blank_iff. now intros n [= <-]. }
  congruence.
Qed.

(** ** Additions through a prompt *)

(** X3. [addProject], [addIdea] and [addContact] do nothing, not even a
    save, when the prompt is cancelled or its answer is empty or white
    space.  Otherwise each appends one record to its collection, with the
    trimmed answer as name or text, which is not empty and has no white
    space at either end, and leaves the other collections. *)
Theorem prompt_additions (e : Env) (answer : option string) (s : State) :
  (blank answer = true <->
   forall name, answer = Some name -> Js.trim name = "") /\
  (blank answer = true ->
   addProject e answer s = (s, []) /\
   addIdea e answer s = (s, []) /\
   addContact e answer s = (s, [])) /\
  (forall name : string,
     answer = Some name -> blank answer = false ->
     Js.trim name <> "" /\ trimmed (Js.trim name) /\
     Js.trim (Js.trim name) = Js.trim name /\
     projects (addProject e answer s).1
       = projects s ++ [Project.mk (generateId e) (Js.trim name) "" "active"
                          0%N 0%N (isoNow e)] /\
     ideas (addIdea e answer s).1
       = ideas s ++ [Idea.mk (generateId e) (Js.trim name) "general" 2%N
                       "new" (isoNow e)] /\
     contacts (addContact e answer s).1
       = contacts s ++ [Contact.mk (generateId e) (Js.trim name) "" "network"
                          "" "" None None "" (isoNow e)] /\
     (inbox (addProject e answer s).1 = inbox s /\
      tasks (addProject e answer s).1 = tasks s /\
      ideas (addProject e answer s).1 = ideas s /\
      contacts (addProject e answer s).1 = contacts s) /\
     (inbox (addIdea e answer s).1 = inbox s /\
      tasks (addIdea e answer s).1 = tasks s /\
      projects (addIdea e answer s).1 = projects s /\
      contacts (addIdea e answer s).1 = contacts s) /\
     (inbox (addContact e answer s).1 = inbox s /\
      tasks (addContact e answer s).1 = tasks s /\
      ideas (addContact e answer s).1 = ideas s /\
      projects (addContact e answer s).1 = projects s)).
Proof.
  split; [apply blank_iff|]. split.
  - intros H. unfold addProject, addIdea, addContact. rewrite H.
    now destruct answer.
  - intros name -> H. unfold addProject, addIdea, addContact. rewrite H.
    split; [now apply not_blank|]. split; [apply trim_trimmed|].
    split; [apply trim_idem|]. repeat split.
Qed.

Lemma prompt_additions_witness :
  blank (Some "  Garden  ") = false /\
  projects (addProject sample_env (Some "  Garden  ") sample_state).1
  = projects sample_state ++
    [Project.mk (generateId sample_env) (Js.trim "  Garden  ") "" "active"
       0%N 0%N (isoNow sample_env)].
Proof.
  split; [reflexivity|].
  exact (proj1 (proj2 (proj2 (proj2
    (proj2 (proj2 (prompt_additions sample_env (Some "  Garden  ")
                     sample_state)) "  Garden  " eq_refl eq_refl))))).
Defined.

(** ** Editing and toggling tasks *)

Lemma blank_some (t : string) :
  Js.truthy t && Js.truthy (Js.trim t) = negb (blank (Some t)).
Proof. simpl. now rewrite negb_orb, !negb_involutive. Qed.

(** X4. [editTask] does nothing when no task carries the id, when the
    prompt is cancelled or when its answer is empty or white space.
    Otherwise the first task that carries the id gets the trimmed
    answer as its text, the state is saved and ['Task updated!'] is
    announced; this task is the only one that changes, and only in its
    text: the other tasks, the other fields and the other collections
    are the same. *)
Theorem editTask_text_only (answer : option string) (id : string) (s : State) :
  (forall (task : Task.t) (t : string),
     List.find (task_has_id id) (tasks s) = Some task ->
     answer = Some t -> Js.trim t <> "" ->
     (exists n : nat,
        tasks s !! n = Some task /\
        tasks (editTask answer id s).1 !! n
        = Some (Task.set_text (Js.trim t) task) /\
        Task.text (Task.set_text (Js.trim t) task) = Js.trim t) /\
     (editTask answer id s).2
     = [SaveData (editTask answer id s).1; RenderTasks;
        ShowToast TaskUpdated success]) /\
  (blank answer = true -> editTask answer id s = (s, [])) /\
  ((forall k, In k (tasks s) -> Task.id k <> id) ->
   editTask answer id s = (s, [])) /\
  inbox (editTask answer id s).1 = inbox s /\
  ideas (editTask answer id s).1 = ideas s /\
  projects (editTask answer id s).1 = projects s /\
  contacts (editTask answer id s).1 = contacts s /\
  length (tasks (editTask answer id s).1) = length (tasks s) /\
  (forall (n : nat) (k : Task.t),
     tasks s !! n = Some k ->
     exists k' : Task.t,
       tasks (editTask answer id s).1 !! n = Some k' /\
       Task.id k' = Task.id k /\
       Task.completed k' = Task.completed k /\
       Task.priority k' = Task.priority k /\
       Task.dueDate k' = Task.dueDate k /\
       Task.project k' = Task.project k /\
       Task.context k' = Task.context k /\
       Task.createdAt k' = Task.createdAt k /\
       Task.completedAt k' = Task.completedAt k /\
       (k' <> k ->
        Task.id k = id /\
        (forall (m : nat) (other : Task.t),
           m < n -> tasks s !! m = Some other -> Task.id other <> id) /\
        exists t : string,
          answer = Some t /\ Task.text k' = Js.trim t /\ Js.trim t <> "")).
Proof.
  assert (Hsame : forall n k, tasks s !! n = Some k ->
            exists k', tasks s !! n = Some k' /\
              Task.id k' = Task.id k /\
              Task.completed k' = Task.completed k /\
              Task.priority k' = Task.priority k /\
              Task.dueDate k' = Task.dueDate k /\
              Task.project k' = Task.project k /\
              Task.context k' = Task.context k /\
              Task.createdAt k' = Task.createdAt k /\
              Task.completedAt k' = Task.completedAt k /\
              (k' <> k ->
               Task.id k = id /\
               (forall (m : nat) (other : Task.t),
                  m < n -> tasks s !! m = Some other -> Task.id other <> id) /\
               exists t : string,
                 answer = Some t /\ Task.text k' = Js.trim t /\
                 Js.trim t <> "")).
  { intros n k Hn. exists k. split; [exact Hn|].
    do 8 (split; [reflexivity|]). intros Hne. now elim Hne. }
  split.
  { intros task t Hfind -> Ht. unfold editTask. rewrite Hfind, blank_some.
    assert (Hb : blank (Some t) = false).
    { apply not_true_is_false. intros Hb.
      apply Ht. exact (proj1 (blank_iff (Some t)) Hb t eq_refl). }
    rewrite Hb. cbn [negb fst snd tasks set_tasks].
    split; [|reflexivity].
    destruct (update_first_found (task_has_id id)
                (Task.set_text (Js.trim t)) _ _ Hfind) as [n [H1 [H2 _]]].
    exists n. split; [exact H1|]. split; [exact H2 | reflexivity]. }
  unfold editTask.
  destruct (List.find (task_has_id id) (tasks s)) as [found|] eqn:Hfind.
  2:{ repeat split; auto. }
  destruct answer as [t|].
  2:{ repeat split; auto. }
  rewrite blank_some. destruct (blank (Some t)) eqn:Hb; cbn [negb].
  { repeat split; auto. }
  cbn [fst tasks set_tasks inbox ideas projects contacts].
  split; [discriminate|]. split.
  { intros Hno. exfalso. destruct (find_present _ _ _ Hfind) as [Hin Hid].
    apply String.eqb_eq in Hid. exact (Hno found Hin Hid). }
  do 4 (split; [reflexivity|]). split; [apply length_update_first|].
  intros n k Hn.
  destruct (update_first_lookup (task_has_id id)
              (Task.set_text (Js.trim t)) _ _ _ Hn) as [H | [H1 [H2 H3]]].
  - exists k. split; [exact H|]. do 8 (split; [reflexivity|]).
    intros Hne. now elim Hne.
  - exists (Task.set_text (Js.trim t) k). split; [exact H1|].
    do 8 (split; [reflexivity|]). intros _.
    split; [now apply String.eqb_eq|]. split.
    + intros m other Hm Hother Hid. apply String.eqb_eq in Hid.
      unfold task_has_id in H3. rewrite (H3 m other) in Hid; auto.
      discriminate.
    + exists t. split; [reflexivity|]. split; [reflexivity|].
      now apply not_blank.
Qed.

Lemma editTask_text_only_witness :
  List.find (task_has_id "loyw3v28aaa") (tasks tasks_state) = Some done_task /\
  Js.trim "  water the garden " <> "" /\
  (exists n : nat,
     tasks tasks_state !! n = Some done_task /\
     tasks (editTask (Some "  water the garden ") "loyw3v28aaa"
              tasks_state).1 !! n
     = Some (Task.set_text (Js.trim "  water the garden ") done_task) /\
     Task.text (Task.set_text (Js.trim "  water the garden ") done_task)
     = Js.trim "  water the garden ").
Proof.
  assert (Hf : List.find (task_has_id "loyw3v28aaa") (tasks tasks_state)
               = Some done_task) by reflexivity.
  assert (Ht : Js.trim "  water the garden " <> "")
    by (vm_compute; discriminate).
  split; [exact Hf|]. split; [exact Ht|].
  exact (proj1 (proj1 (editTask_text_only (Some "  water the garden ")
                         "loyw3v28aaa" tasks_state)
                  done_task "  water the garden " Hf eq_refl Ht)).
Defined.

Lemma update_first_compose {A} (p : A -> bool) (f g : A -> A) (l : list A) :
  (forall x, p (f x) = p x) ->
  update_first p g (update_first p f l)
  = update_first p (fun x => g (f x)) l.
Proof.
  intros Hp. induction l as [|a l IH]; simpl; [reflexivity|].
  destruct (p a) eqn:Ha; simpl.
  - now rewrite Hp, Ha.
  - now rewrite Ha, IH.
Qed.

Lemma task_has_id_toggle (e : Env) (id : string) (k : Task.t) :
  task_has_id id (toggle e k) = task_has_id id k.
Proof. reflexivity. Qed.

(** X5. Toggling a task twice gives back its [completed] flag and every
    other field but [completedAt]: a task that was active ends with
    [completedAt = null], also when it had no such property before, and a
    task that was completed gets the time of the second toggle.  On the
    state, two calls of [toggleTask] with the same id act on the same
    task, the first that carries the id. *)
Theorem toggleTask_twice (e1 e2 : Env) (page1 page2 id : string) (s : State) :
  (forall k : Task.t,
     Task.completed (toggle e2 (toggle e1 k)) = Task.completed k /\
     Task.id (toggle e2 (toggle e1 k)) = Task.id k /\
     Task.text (toggle e2 (toggle e1 k)) = Task.text k /\
     Task.priority (toggle e2 (toggle e1 k)) = Task.priority k /\
     Task.dueDate (toggle e2 (toggle e1 k)) = Task.dueDate k /\
     Task.project (toggle e2 (toggle e1 k)) = Task.project k /\
     Task.context (toggle e2 (toggle e1 k)) = Task.context k /\
     Task.createdAt (toggle e2 (toggle e1 k)) = Task.createdAt k /\
     Task.completedAt (toggle e2 (toggle e1 k))
       = (if Task.completed k then Present (isoNow e2) else Null) /\
     (Task.completedAt k = Absent -> toggle e2 (toggle e1 k) <> k)) /\
  tasks (toggleTask e2 page2 id (toggleTask e1 page1 id s).1).1
    = update_first (task_has_id id) (fun k => toggle e2 (toggle e1 k))
        (tasks s).
Proof.
  split.
  - intros k. unfold toggle. simpl. rewrite negb_involutive.
    do 8 (split; [reflexivity|]).
    split; [now destruct (Task.completed k)|].
    intros Habs Heq. apply (f_equal Task.completedAt) in Heq. simpl in Heq.
    revert Heq. rewrite Habs. destruct (Task.completed k); discriminate.
  - unfold toggleTask.
    destruct (List.find (task_has_id id) (tasks s)) as [found|] eqn:Hfind;
      cbn [fst tasks set_tasks].
    + rewrite (find_update_first _ _ _ _ (task_has_id_toggle e1 id) Hfind).
      cbn [fst tasks set_tasks].
      apply update_first_compose. apply task_has_id_toggle.
    + rewrite Hfind. cbn [fst]. symmetry. now apply update_first_absent.
Qed.

Lemma toggleTask_twice_witness :
  Task.completedAt (newTask sample_env "call the bank") = Absent /\
  toggle sample_env (toggle sample_env (newTask sample_env "call the bank"))
  <> newTask sample_env "call the bank".
Proof.
  split; [reflexivity|].
  exact (proj2 (proj2 (proj2 (proj2 (proj2 (proj2 (proj2 (proj2 (proj2
    (proj1 (toggleTask_twice sample_env sample_env "tasks" "tasks" "x"
              tasks_state) (newTask sample_env "call the bank"))))))))))
    eq_refl).
Defined.

(** ** No empty texts *)

Lemma Forall_text_update {A} (P : A -> Prop) (p : A -> bool) (f : A -> A)
    (l : list A) :
  Forall P l -> (forall x, P x -> p x = true -> P (f x)) ->
  Forall P (update_first p f l).
Proof.
  intros Hl Hf. induction Hl as [|x l Hx Hl IH]; simpl; [constructor|].
  destruct (p x) eqn:E; constructor; auto.
Qed.

Lemma found_text_nonempty (id : string) (l : list InboxItem.t)
    (item : InboxItem.t) :
  Forall (fun i => InboxItem.text i <> "") l ->
  List.find (has_id id) l = Some item -> InboxItem.text item <> "".
Proof.
  intros Hl Hfind. destruct (find_present _ _ _ Hfind) as [Hin _].
  rewrite List.Forall_forall in Hl. now apply Hl.
Qed.

(** X6. No operation puts a record with an empty text or name into the
    state: when the inbox items, tasks and ideas have non-empty texts and
    the projects and contacts non-empty names, they still have after a
    capture, a classification, a conversion, an addition, an edit, a
    toggle or a deletion. *)
Theorem texts_stay_nonempty (e : Env) (page id input : string)
    (answer text type field : option string) (s : State) :
  texts_nonempty s ->
  texts_nonempty (addToInbox e page text type field s).1 /\
  texts_nonempty (classifyInboxItem page id s).1 /\
  texts_nonempty (deleteInboxItem id s).1 /\
  texts_nonempty (convertInboxToTask e id s).1 /\
  texts_nonempty (convertInboxToIdea e id s).1 /\
  texts_nonempty (addQuickTask e input s).1 /\
  texts_nonempty (showAddTaskModal e answer s).1 /\
  texts_nonempty (toggleTask e page id s).1 /\
  texts_nonempty (deleteTask id s).1 /\
  texts_nonempty (editTask answer id s).1 /\
  texts_nonempty (addProject e answer s).1 /\
  texts_nonempty (addIdea e answer s).1 /\
  texts_nonempty (deleteIdea id s).1 /\
  texts_nonempty (addContact e answer s).1.
Proof.
  intros Hs. pose proof Hs as [Hi [Ht [Hd [Hp Hc]]]].
  assert (Hanswer : forall a, blank (Some a) = false -> Js.trim a <> "")
    by apply not_blank.
  repeat match goal with |- _ /\ _ => split end.
  - unfold addToInbox.
    match goal with
    | |- context [if negb (Js.truthy ?x) then _ else _] =>
        destruct (Js.truthy x) eqn:E
    end; cbn [negb fst]; [|exact Hs].
    repeat split; auto. cbn [inbox set_inbox].
    apply Forall_snoc; auto. cbn [InboxItem.text].
    intros H. rewrite H in E. discriminate.
  - unfold classifyInboxItem. destruct (List.find _ _); [|exact Hs].
    repeat split; auto. cbn [fst inbox set_inbox].
    apply Forall_update_first; auto. intros x Hx. now rewrite classify_text.
  - unfold deleteInboxItem. repeat split; auto. cbn [fst inbox set_inbox].
    now apply Forall_bool_filter.
  - unfold convertInboxToTask.
    destruct (List.find _ _) as [item|] eqn:Hfind; [|exact Hs].
    repeat split; auto; cbn [fst inbox set_inbox tasks set_tasks].
    + now apply Forall_bool_filter.
    + apply Forall_snoc; auto. cbn [newTask Task.text].
      exact (found_text_nonempty id _ _ Hi Hfind).
  - unfold convertInboxToIdea.
    destruct (List.find _ _) as [item|] eqn:Hfind; [|exact Hs].
    repeat split; auto; cbn [fst inbox set_inbox ideas set_ideas].
    + now apply Forall_bool_filter.
    + apply Forall_snoc; auto. cbn [newIdea Idea.text].
      exact (found_text_nonempty id _ _ Hi Hfind).
  - unfold addQuickTask. destruct (Js.truthy (Js.trim input)) eqn:E;
      cbn [negb fst]; [|exact Hs].
    repeat split; auto. cbn [tasks set_tasks]. apply Forall_snoc; auto.
    cbn [newTask Task.text]. intros H. rewrite H in E. discriminate.
  - unfold showAddTaskModal. destruct answer as [ans|]; [|exact Hs].
    rewrite blank_some. destruct (blank (Some ans)) eqn:E; cbn [negb fst];
      [exact Hs|].
    repeat split; auto. cbn [tasks set_tasks]. apply Forall_snoc; auto.
    cbn [newTask Task.text]. now apply Hanswer.
  - unfold toggleTask. destruct (List.find _ _); [|exact Hs].
    repeat split; auto. cbn [fst tasks set_tasks].
    apply Forall_update_first; auto.
  - unfold deleteTask. repeat split; auto. cbn [fst tasks set_tasks].
    now apply Forall_bool_filter.
  - unfold editTask. destruct (List.find _ _); [|exact Hs].
    destruct answer as [ans|]; [|exact Hs].
    rewrite blank_some. destruct (blank (Some ans)) eqn:E; cbn [negb fst];
      [exact Hs|].
    repeat split; auto. cbn [tasks set_tasks].
    apply Forall_update_first; auto. intros x _. cbn [Task.set_text Task.text].
    now apply Hanswer.
  - unfold addProject. destruct answer as [ans|]; [|exact Hs].
    destruct (blank (Some ans)) eqn:E; [exact Hs|].
    repeat split; auto. cbn [fst projects set_projects].
    apply Forall_snoc; auto. cbn [Project.name]. now apply Hanswer.
  - unfold addIdea. destruct answer as [ans|]; [|exact Hs].
    destruct (blank (Some ans)) eqn:E; [exact Hs|].
    repeat split; auto. cbn [fst ideas set_ideas].
    apply Forall_snoc; auto. cbn [newIdea Idea.text]. now apply Hanswer.
  - unfold deleteIdea. repeat split; auto. cbn [fst ideas set_ideas].
    now apply Forall_bool_filter.
  - unfold addContact. destruct answer as [ans|]; [|exact Hs].
    destruct (blank (Some ans)) eqn:E; [exact Hs|].
    repeat split; auto. cbn [fst contacts set_contacts].
    apply Forall_snoc; auto. cbn [Contact.name]. now apply Hanswer.
Qed.

Lemma texts_stay_nonempty_witness :
  texts_nonempty sample_state /\
  texts_nonempty
    (convertInboxToTask sample_env "lp1a2b3cxyz" sample_state).1.
Proof.
  assert (H : texts_nonempty sample_state).
  { unfold texts_nonempty, sample_state. cbn.
    repeat split; repeat constructor; discriminate. }
  split; [exact H|].
  exact (proj1 (proj2 (proj2 (proj2
    (texts_stay_nonempty sample_env "inbox" "lp1a2b3cxyz" "" None None None
       None sample_state H))))).
Defined.

(** ** The inbox badge *)

Lemma length_filter_update_first {A} (q p : A -> bool) (f : A -> A)
    (l : list A) :
  (forall x, q (f x) = q x) ->
  length (List.filter q (update_first p f l)) = length (List.filter q l).
Proof.
  intros Hq. induction l as [|a l IH]; simpl; [reflexivity|].
  destruct (p a); simpl.
  - rewrite Hq. now destruct (q a).
  - destruct (q a); simpl; now rewrite IH.
Qed.

Lemma length_filter_filter {A} (q p : A -> bool) (l : list A) :
  length (List.filter q (List.filter (fun x => negb (p x)) l))
  + length (List.filter (fun x => q x && p x) l)
  = length (List.filter q l).
Proof.
  induction l as [|a l IH]; [reflexivity|].
  cbn [List.filter]. destruct (p a) eqn:Ep, (q a) eqn:Eq;
    cbn [negb andb List.filter]; rewrite ?Eq; cbn [length]; lia.
Qed.

(** The inbox items that carry [id] and are not done. *)
Lemma badge_after_removal (id : string) (l : list InboxItem.t) :
  length (List.filter
            (fun i => negb (String.eqb (InboxItem.status i) "done"))
            (List.filter (fun i => negb (has_id id i)) l))
  + length (List.filter
              (fun i => negb (String.eqb (InboxItem.status i) "done")
                        && has_id id i) l)
  = length (List.filter
              (fun i => negb (String.eqb (InboxItem.status i) "done")) l).
Proof. apply length_filter_filter. Qed.

(** X7. The number in the inbox badge, the count of inbox items whose
    status is not ['done'], is at most the length of the inbox; a capture
    that adds an item raises it by one; a classification never changes
    it; a deletion or a conversion lowers it by the number of items not
    done that carry the id. *)
Theorem inboxBadge_steps (e : Env) (page id : string)
    (text type field : option string) (s : State) :
  inboxBadge s <= length (inbox s) /\
  (addToInbox e page text type field s = (s, []) \/
   inboxBadge (addToInbox e page text type field s).1 = S (inboxBadge s)) /\
  inboxBadge (classifyInboxItem page id s).1 = inboxBadge s /\
  inboxBadge (deleteInboxItem id s).1
  + length (List.filter
              (fun i => negb (String.eqb (InboxItem.status i) "done")
                        && has_id id i) (inbox s))
  = inboxBadge s /\
  inboxBadge (convertInboxToTask e id s).1
  + length (List.filter
              (fun i => negb (String.eqb (InboxItem.status i) "done")
                        && has_id id i) (inbox s))
  = inboxBadge s /\
  inboxBadge (convertInboxToIdea e id s).1
  + length (List.filter
              (fun i => negb (String.eqb (InboxItem.status i) "done")
                        && has_id id i) (inbox s))
  = inboxBadge s.
Proof.
  unfold inboxBadge.
  split; [apply List.filter_length_le|]. split.
  { unfold addToInbox.
    match goal with
    | |- context [if negb (Js.truthy ?x) then _ else _] =>
        destruct (Js.truthy x)
    end; cbn [negb fst]; [right | now left].
    cbn [inbox set_inbox]. rewrite List.filter_app, length_app. simpl. lia. }
  split.
  { unfold classifyInboxItem. destruct (List.find _ _); [|reflexivity].
    cbn [fst inbox set_inbox]. apply length_filter_update_first.
    intros x. now rewrite classify_status. }
  split; [apply badge_after_removal|].
  assert (Hnone : List.find (has_id id) (inbox s) = None ->
            length (List.filter
                      (fun i => negb (String.eqb (InboxItem.status i) "done")
                                && has_id id i) (inbox s)) = 0).
  { intros Hfind. pose proof (badge_after_removal id (inbox s)) as Hb.
    rewrite (filter_all (fun i => negb (has_id id i))) in Hb; [lia|].
    intros x Hx. apply negb_true_iff.
    exact (List.find_none _ _ Hfind x Hx). }
  split.
  - unfold convertInboxToTask.
    destruct (List.find _ _) eqn:Hfind; cbn [fst inbox set_inbox set_tasks].
    + apply badge_after_removal.
    + rewrite (Hnone eq_refl). lia.
  - unfold convertInboxToIdea.
    destruct (List.find _ _) eqn:Hfind; cbn [fst inbox set_inbox set_ideas].
    + apply badge_after_removal.
    + rewrite (Hnone eq_refl). lia.
Qed.

(** ** Capture, then classification *)

Lemma find_snoc_fresh {A} (p : A -> bool) (l : list A) (x : A) :
  List.find p l = None -> p x = true -> List.find p (l ++ [x]) = Some x.
Proof.
  intros Hl Hx. induction l as [|a l IH]; simpl in *; [now rewrite Hx|].
  destruct (p a); [discriminate|]. now apply IH.
Qed.

Lemma update_first_snoc_fresh {A} (p : A -> bool) (f : A -> A) (l : list A)
    (x : A) :
  List.find p l = None -> p x = true ->
  update_first p f (l ++ [x]) = l ++ [f x].
Proof.
  intros Hl Hx. induction l as [|a l IH]; simpl in *; [now rewrite Hx|].
  destruct (p a); [discriminate|]. now rewrite IH.
Qed.

Lemma find_snoc_present {A} (p : A -> bool) (l : list A) (x y : A) :
  List.find p l = Some y -> List.find p (l ++ [x]) = Some y.
Proof.
  induction l as [|a l IH]; simpl; [discriminate|].
  destruct (p a); [auto | exact IH].
Qed.

Lemma update_first_snoc_present {A} (p : A -> bool) (f : A -> A) (l : list A)
    (x y : A) :
  List.find p l = Some y ->
  update_first p f (l ++ [x]) = update_first p f l ++ [x].
Proof.
  induction l as [|a l IH]; simpl; [discriminate|].
  destruct (p a); [reflexivity|]. intros H. now rewrite IH.
Qed.

(** X8. The classification that [addToInbox] schedules runs on the id of
    the captured item.  When no older inbox item carries that id, it
    classifies the captured item, the last of the inbox, and leaves the
    older items; when an older item carries the id, it classifies the
    first such item instead and the captured item keeps the type it was
    captured with and its empty summary. *)
Theorem capture_then_classify (e : Env) (page page' : string)
    (text type field : option string) (s : State) (item : InboxItem.t) :
  inbox (addToInbox e page text type field s).1 = inbox s ++ [item] ->
  InboxItem.id item = generateId e /\
  InboxItem.aiSummary item = "" /\
  InboxItem.status item = "new" /\
  InboxItem.type item = default "thought" type /\
  last (addToInbox e page text type field s).2
    = Some (SetTimeoutClassify (generateId e)) /\
  ((forall old, In old (inbox s) -> InboxItem.id old <> generateId e) ->
   inbox (classifyInboxItem page' (generateId e)
            (addToInbox e page text type field s).1).1
   = inbox s ++ [classify item]) /\
  (forall old : InboxItem.t,
     List.find (has_id (generateId e)) (inbox s) = Some old ->
     inbox (classifyInboxItem page' (generateId e)
              (addToInbox e page text type field s).1).1
     = update_first (has_id (generateId e)) classify (inbox s) ++ [item]).
Proof.
  intros Hadd.
  destruct (addToInbox_item e page text type field s) as [H | [t [Ht [H1 H2]]]].
  { rewrite H in Hadd. apply (f_equal (@length _)) in Hadd.
    rewrite length_app in Hadd. simpl in Hadd. lia. }
  rewrite H1 in Hadd. apply app_inj_tail in Hadd as [_ <-].
  cbn [InboxItem.id InboxItem.aiSummary InboxItem.status InboxItem.type].
  do 4 (split; [reflexivity|]). split; [exact H2|].
  unfold classifyInboxItem. rewrite H1.
  assert (Hid : has_id (generateId e)
                  (InboxItem.mk (generateId e) t (default "thought" type)
                     "new" (isoNow e) "") = true)
    by (apply has_id_true; reflexivity).
  split.
  - intros Hfresh. pose proof (find_no_such_id _ _ Hfresh) as Hnone.
    rewrite (find_snoc_fresh _ _ _ Hnone Hid). cbn [fst inbox set_inbox].
    now apply update_first_snoc_fresh.
  - intros old Hold. rewrite (find_snoc_present _ _ _ _ Hold).
    cbn [fst inbox set_inbox].
    now apply (update_first_snoc_present _ _ _ _ old).
Qed.

Lemma capture_then_classify_witness :
  inbox (addToInbox sample_env "inbox" (Some "todo: water the plants") None
           None sample_state).1
  = inbox sample_state ++
    [InboxItem.mk (generateId sample_env) "todo: water the plants" "thought"
       "new" (isoNow sample_env) ""] /\
  (forall old, In old (inbox sample_state) ->
               InboxItem.id old <> generateId sample_env) /\
  inbox (classifyInboxItem "inbox" (generateId sample_env)
           (addToInbox sample_env "inbox" (Some "todo: water the plants")
              None None sample_state).1).1
  = inbox sample_state ++
    [classify (InboxItem.mk (generateId sample_env) "todo: water the plants"
                 "thought" "new" (isoNow sample_env) "")].
Proof.
  assert (H : forall old, In old (inbox sample_state) ->
                          InboxItem.id old <> generateId sample_env).
  { intros old [<- | [<- | []]]; vm_compute; discriminate. }
  split; [reflexivity|]. split; [exact H|].
  exact (proj1 (proj2 (proj2 (proj2 (proj2 (proj2
    (capture_then_classify sample_env "inbox" "inbox"
       (Some "todo: water the plants") None None sample_state _ eq_refl))))))
    H).
Defined.

(** ** Recent captures *)

(** X9. The recent captures of the dashboard are the first five cards of
    the inbox page: the items newest first, at most five, all of them
    when the inbox has five items or fewer; the item captured last comes
    first. *)
Theorem recentInbox_newest_first (s : State) :
  recentInbox s = take 5 (inboxPage s) /\
  length (recentInbox s) = Nat.min 5 (length (inbox s)) /\
  (length (inbox s) <= 5 -> recentInbox s = inboxPage s) /\
  (forall (older : list InboxItem.t) (item : InboxItem.t),
     inbox s = older ++ [item] -> head (recentInbox s) = Some item).
Proof.
  assert (E : recentInbox s = take 5 (inboxPage s)).
  { unfold recentInbox, inboxPage, slice_last. now rewrite take_reverse. }
  split; [exact E|]. split; [|split].
  - rewrite E, length_take. unfold inboxPage. now rewrite length_reverse.
  - intros H. rewrite E. apply take_ge. unfold inboxPage.
    now rewrite length_reverse.
  - intros older item H. rewrite E. unfold inboxPage. rewrite H.
    now rewrite reverse_snoc.
Qed.

Lemma recentInbox_newest_first_witness :
  inbox sample_state = [sample_item] ++ [long_item] /\
  head (recentInbox sample_state) = Some long_item.
Proof.
  split; [reflexivity|].
  exact (proj2 (proj2 (proj2 (recentInbox_newest_first sample_state)))
           [sample_item] long_item eq_refl).
Defined.

(** ** Search *)

Lemma toLowerCase_empty (s : string) : Js.toLowerCase s = "" <-> s = "".
Proof. destruct s; simpl; split; intros H; try discriminate; reflexivity. Qed.

Lemma filter_hit {A} (q : A -> bool) (l : list A) (x : A) :
  In x l -> q x = true -> 0 < length (List.filter q l).
Proof.
  intros Hin Hq.
  assert (H : In x (List.filter q l)) by (apply List.filter_In; auto).
  destruct (List.filter q l); [destruct H | simpl; lia].
Qed.

(** X10. The search of the header does nothing for an empty or blank
    field.  Otherwise it looks for the trimmed, lowercased field in the
    lowercased texts of the inbox items, tasks and ideas, and only there:
    it announces the number of these records whose lowercased text
    contains the lowercased field, the sum of the three counts, and
    ['No results found'] when there is none.  So a record of one of the
    three collections whose lowercased text contains the lowercased field
    is found. *)
Theorem search_finds_any_case (value : string) (s : State) :
  (Js.trim value = "" -> searchOnEnter value s = []) /\
  (forall q : string,
     length (searchResults q s)
     = length (List.filter
                 (fun i => Js.includes (Js.toLowerCase (InboxItem.text i)) q)
                 (inbox s))
       + length (List.filter
                   (fun k => Js.includes (Js.toLowerCase (Task.text k)) q)
                   (tasks s))
       + length (List.filter
                   (fun i => Js.includes (Js.toLowerCase (Idea.text i)) q)
                   (ideas s))) /\
  (forall (q : string) (s' : State),
     inbox s' = inbox s -> tasks s' = tasks s -> ideas s' = ideas s ->
     performSearch q s' = performSearch q s) /\
  (forall n : nat,
     Js.trim value <> "" ->
     n = length (List.filter
                   (fun i => Js.includes (Js.toLowerCase (InboxItem.text i))
                               (Js.toLowerCase (Js.trim value)))
                   (inbox s))
         + length (List.filter
                     (fun k => Js.includes (Js.toLowerCase (Task.text k))
                                 (Js.toLowerCase (Js.trim value)))
                     (tasks s))
         + length (List.filter
                     (fun i => Js.includes (Js.toLowerCase (Idea.text i))
                                 (Js.toLowerCase (Js.trim value)))
                     (ideas s)) ->
     (n = 0 -> searchOnEnter value s = [Notify NoResultsFound info]) /\
     (0 < n -> searchOnEnter value s = [Notify (FoundResults n) success]) /\
     ((exists i, In i (inbox s) /\
                 contains (Js.toLowerCase (InboxItem.text i))
                   (Js.toLowerCase (Js.trim value))) \/
      (exists k, In k (tasks s) /\
                 contains (Js.toLowerCase (Task.text k))
                   (Js.toLowerCase (Js.trim value))) \/
      (exists i, In i (ideas s) /\
                 contains (Js.toLowerCase (Idea.text i))
                   (Js.toLowerCase (Js.trim value))) ->
      0 < n /\ searchOnEnter value s = [Notify (FoundResults n) success])).
Proof.
  assert (Hlen : forall q : string,
     length (searchResults q s)
     = length (List.filter
                 (fun i => Js.includes (Js.toLowerCase (InboxItem.text i)) q)
                 (inbox s))
       + length (List.filter
                   (fun k => Js.includes (Js.toLowerCase (Task.text k)) q)
                   (tasks s))
       + length (List.filter
                   (fun i => Js.includes (Js.toLowerCase (Idea.text i)) q)
                   (ideas s))).
  { intros q. unfold searchResults.
    rewrite !length_app, !length_map. lia. }
  split.
  { intros H. unfold searchOnEnter. now rewrite H. }
  split; [exact Hlen|]. split.
  { intros q s' Hi Ht Hd. unfold performSearch, searchResults.
    now rewrite Hi, Ht, Hd. }
  intros n Hne Hn. rewrite <- Hlen in Hn.
  assert (Hzero : n = 0 -> searchOnEnter value s = [Notify NoResultsFound info]).
  { intros Hz. unfold searchOnEnter.
    rewrite truthy_true by (rewrite toLowerCase_empty; exact Hne).
    unfold performSearch. rewrite <- Hn, Hz. reflexivity. }
  assert (Hpos : 0 < n ->
            searchOnEnter value s = [Notify (FoundResults n) success]).
  { intros Hp. unfold searchOnEnter.
    rewrite truthy_true by (rewrite toLowerCase_empty; exact Hne).
    unfold performSearch. rewrite <- Hn.
    destruct n; [lia | reflexivity]. }
  split; [exact Hzero|]. split; [exact Hpos|].
  intros Hhit.
  assert (Hp : 0 < n).
  { rewrite Hn, Hlen.
    destruct Hhit as [[i [Hin Hc]] | [[k [Hin Hc]] | [i [Hin Hc]]]];
      apply includes_iff in Hc.
    - pose proof (filter_hit
        (fun i => Js.includes (Js.toLowerCase (InboxItem.text i))
                    (Js.toLowerCase (Js.trim value))) _ i Hin Hc). lia.
    - pose proof (filter_hit
        (fun k => Js.includes (Js.toLowerCase (Task.text k))
                    (Js.toLowerCase (Js.trim value))) _ k Hin Hc). lia.
    - pose proof (filter_hit
        (fun i => Js.includes (Js.toLowerCase (Idea.text i))
                    (Js.toLowerCase (Js.trim value))) _ i Hin Hc). lia. }
  split; [exact Hp | exact (Hpos Hp)].
Qed.

Lemma search_finds_any_case_witness :
  Js.trim "  HTTP://X  " <> "" /\
  (exists i, In i (inbox sample_state) /\
             contains (Js.toLowerCase (InboxItem.text i))
               (Js.toLowerCase (Js.trim "  HTTP://X  "))) /\
  searchOnEnter "  HTTP://X  " sample_state
  = [Notify (FoundResults 1) success].
Proof.
  assert (H1 : Js.trim "  HTTP://X  " <> "") by (vm_compute; discriminate).
  assert (H3 : exists i, In i (inbox sample_state) /\
                         contains (Js.toLowerCase (InboxItem.text i))
                           (Js.toLowerCase (Js.trim "  HTTP://X  "))).
  { exists sample_item. split; [now left|].
    apply includes_iff. reflexivity. }
  split; [exact H1|]. split; [exact H3|].
  exact (proj2 (proj2 (proj2 (proj2 (proj2 (proj2
    (search_finds_any_case "  HTTP://X  " sample_state)))
      1 H1 eq_refl)) (or_introl H3))).
Defined.

(** ** Dates and task lists of the pages *)

Section ViewFacts.
Variable tza : Z -> bool -> Z.
Variable dateParse : string -> option Z.
Variable localeDate : option Z -> string.
Variable sort :
  (Task.t -> Task.t -> option Z) -> list Task.t -> list Task.t.

(** X11. [formatDate] writes ['Just now'] for every date less than a
    minute old, and so for every date in the future, such as a due date
    that is still ahead; then whole minutes from 1 to 59, whole hours
    from 1 to 23, whole days from 1 to 6; a date a week old or older, or
    a date that cannot be parsed, goes to the locale formatter. *)
Theorem formatDate_ranges (now : Z) (date : string) :
  (dateParse date = None ->
   formatDate dateParse localeDate now date = localeDate None) /\
  (forall t : Z,
     dateParse date = Some t ->
     (now < t -> formatDate dateParse localeDate now date = "Just now") /\
     (now - t < 60000 ->
      formatDate dateParse localeDate now date = "Just now") /\
     (60000 <= now - t < 3600000 ->
      1 <= (now - t) / 60000 <= 59 /\
      formatDate dateParse localeDate now date
      = (pretty ((now - t) / 60000) ++ "m ago")%string) /\
     (3600000 <= now - t < 86400000 ->
      1 <= (now - t) / 3600000 <= 23 /\
      formatDate dateParse localeDate now date
      = (pretty ((now - t) / 3600000) ++ "h ago")%string) /\
     (86400000 <= now - t < 604800000 ->
      1 <= (now - t) / 86400000 <= 6 /\
      formatDate dateParse localeDate now date
      = (pretty ((now - t) / 86400000) ++ "d ago")%string) /\
     (604800000 <= now - t ->
      formatDate dateParse localeDate now date = localeDate (Some t)))%Z.
Proof.
  unfold formatDate. split; [intros ->; reflexivity|].
  intros t ->.
  assert (J : (now - t < 60000)%Z ->
              (if (now - t <? 60000)%Z then "Just now"
               else if (now - t <? 3600000)%Z
                    then (pretty ((now - t) / 60000)%Z ++ "m ago")%string
               else if (now - t <? 86400000)%Z
                    then (pretty ((now - t) / 3600000)%Z ++ "h ago")%string
               else if (now - t <? 604800000)%Z
                    then (pretty ((now - t) / 86400000)%Z ++ "d ago")%string
               else localeDate (Some t)) = "Just now").
  { intros H. apply Z.ltb_lt in H. now rewrite H. }
  split; [intros H; apply J; lia|]. split; [exact J|].
  split; [|split; [|split]].
  - intros [H1 H2]. split.
    + split; [apply Z.div_le_lower_bound; lia
             | apply Zorder.Zlt_succ_le, Z.div_lt_upper_bound; lia].
    + apply Z.ltb_ge in H1. apply Z.ltb_lt in H2. now rewrite H1, H2.
  - intros [H1 H2]. split.
    + split; [apply Z.div_le_lower_bound; lia
             | apply Zorder.Zlt_succ_le, Z.div_lt_upper_bound; lia].
    + assert (E1 : (now - t <? 60000)%Z = false) by (apply Z.ltb_ge; lia).
      assert (E2 : (now - t <? 3600000)%Z = false) by (apply Z.ltb_ge; lia).
      apply Z.ltb_lt in H2. now rewrite E1, E2, H2.
  - intros [H1 H2]. split.
    + split; [apply Z.div_le_lower_bound; lia
             | apply Zorder.Zlt_succ_le, Z.div_lt_upper_bound; lia].
    + assert (E1 : (now - t <? 60000)%Z = false) by (apply Z.ltb_ge; lia).
      assert (E2 : (now - t <? 3600000)%Z = false) by (apply Z.ltb_ge; lia).
      assert (E3 : (now - t <? 86400000)%Z = false) by (apply Z.ltb_ge; lia).
      apply Z.ltb_lt in H2. now rewrite E1, E2, E3, H2.
  - intros H.
    assert (E1 : (now - t <? 60000)%Z = false) by (apply Z.ltb_ge; lia).
    assert (E2 : (now - t <? 3600000)%Z = false) by (apply Z.ltb_ge; lia).
    assert (E3 : (now - t <? 86400000)%Z = false) by (apply Z.ltb_ge; lia).
    assert (E4 : (now - t <? 604800000)%Z = false) by (apply Z.ltb_ge; lia).
    now rewrite E1, E2, E3, E4.
Qed.

Lemma opp_sub (x y : Z) : (- (x - y))%Z = (y - x)%Z.
Proof. lia. Qed.

Lemma dueDifference_swap (a b : Task.t) :
  dueDifference dateParse b a = Z.opp <$> dueDifference dateParse a b.
Proof.
  unfold dueDifference.
  destruct (Task.dueDate a) as [da|], (Task.dueDate b) as [db|];
    try reflexivity.
  destruct (dateParse da), (dateParse db); simpl; try reflexivity.
  now rewrite opp_sub.
Qed.

(** X12. The comparison function of the task page is antisymmetric: the
    result for two tasks in the other order is the opposite number, or
    [NaN] again.  It puts an active task before a completed one and,
    among tasks of the same completion, a task of high priority before
    the others. *)
Theorem compareTasks_antisymmetric (a b : Task.t) :
  compareTasks dateParse b a = Z.opp <$> compareTasks dateParse a b /\
  (Task.completed a = false -> Task.completed b = true ->
   compareTasks dateParse a b = Some (-1)%Z) /\
  (Task.completed a = Task.completed b ->
   isHigh a = true -> isHigh b = false ->
   compareTasks dateParse a b = Some (-1)%Z).
Proof.
  unfold compareTasks. split; [|split].
  - destruct (Task.completed a), (Task.completed b); cbn [Bool.eqb negb];
      try reflexivity;
      destruct (isHigh a), (isHigh b); cbn [andb negb]; try reflexivity;
      destruct (noDueDate a), (noDueDate b); cbn [andb]; try reflexivity;
      apply dueDifference_swap.
  - intros -> ->. reflexivity.
  - intros -> -> ->. now rewrite eqb_reflx.
Qed.


(** X13. The comparison function of the upcoming tasks of the dashboard
    is not antisymmetric on tasks without a due date: for two such tasks
    it answers 1 in both orders, and 1 for a task against itself, so that
    each is to come after the other.  When one of the two tasks has a due
    date, the answers in the two orders are opposite. *)
Theorem compareUpcoming_undated (a b : Task.t) :
  (noDueDate a = true -> noDueDate b = true ->
   compareUpcoming dateParse a b = Some 1%Z /\
   compareUpcoming dateParse b a = Some 1%Z /\
   compareUpcoming dateParse a a = Some 1%Z) /\
  (noDueDate a && noDueDate b = false ->
   compareUpcoming dateParse b a = Z.opp <$> compareUpcoming dateParse a b).
Proof.
  unfold compareUpcoming. split.
  - intros -> ->. repeat split.
  - destruct (noDueDate a), (noDueDate b); cbn [andb]; try discriminate;
      intros _; try reflexivity. apply dueDifference_swap.
Qed.


End ViewFacts.

Lemma compareTasks_antisymmetric_witness :
  Task.completed (newTask sample_env "call the bank") = false /\
  Task.completed done_task = true /\
  compareTasks sample_dateParse (newTask sample_env "call the bank") done_task
  = Some (-1)%Z.
Proof.
  split; [reflexivity|]. split; [reflexivity|].
  exact (proj1 (proj2 (compareTasks_antisymmetric sample_dateParse
                         (newTask sample_env "call the bank") done_task))
           eq_refl eq_refl).
Defined.

Lemma compareUpcoming_undated_witness :
  noDueDate (newTask sample_env "call the bank") = true /\
  noDueDate done_task = true /\
  compareUpcoming sample_dateParse (newTask sample_env "call the bank")
    done_task = Some 1%Z /\
  compareUpcoming sample_dateParse done_task
    (newTask sample_env "call the bank") = Some 1%Z.
Proof.
  split; [reflexivity|]. split; [reflexivity|].
  pose proof (proj1 (compareUpcoming_undated sample_dateParse
                       (newTask sample_env "call the bank") done_task)
                eq_refl eq_refl) as [H1 [H2 _]].
  split; [exact H1 | exact H2].
Defined.

Lemma formatDate_ranges_witness :
  sample_dateParse "2023-11-14T22:13:20.000Z" = Some 1700000000000%Z /\
  (1699990000000 < 1700000000000)%Z /\
  formatDate sample_dateParse (fun _ => "Nov 14") 1699990000000
    "2023-11-14T22:13:20.000Z" = "Just now".
Proof.
  split; [reflexivity|]. split; [reflexivity|].
  exact (proj1 (proj2 (formatDate_ranges sample_dateParse (fun _ => "Nov 14")
                         1699990000000 "2023-11-14T22:13:20.000Z")
                  1700000000000%Z eq_refl) eq_refl).
Defined.

Section TaskLists.
Variable tza : Z -> bool -> Z.
Variable dateParse : string -> option Z.
Variable sort :
  (Task.t -> Task.t -> option Z) -> list Task.t -> list Task.t.
(** [sort] rearranges the array it is given. *)
Hypothesis sort_permutes :
  forall (cmp : Task.t -> Task.t -> option Z) (l : list Task.t),
    Permutation (sort cmp l) l.



(** X14. The tabs of the task page: Active and Done split the tasks, so
    their lengths add up to the number of tasks; Today holds only active
    tasks; any other value of the filter shows all tasks.  The page shows
    the tasks of the tab, each as often as the tab holds it, in the order
    the sort gives them. *)
Theorem filteredTasks_tabs (now : Z) (taskFilter : string) (s : State) :
  length (filteredTasks tza dateParse now "active" s)
  + length (filteredTasks tza dateParse now "completed" s)
  = length (tasks s) /\
  (forall k, In k (filteredTasks tza dateParse now "active" s)
             <-> In k (tasks s) /\ Task.completed k = false) /\
  (forall k, In k (filteredTasks tza dateParse now "completed" s)
             <-> In k (tasks s) /\ Task.completed k = true) /\
  (forall k, In k (filteredTasks tza dateParse now "today" s)
             <-> In k (filteredTasks tza dateParse now "active" s) /\
                 DateModel.getDueStatus tza dateParse now (Task.dueDate k)
                 = "today") /\
  (taskFilter <> "active" -> taskFilter <> "completed" ->
   taskFilter <> "today" ->
   filteredTasks tza dateParse now taskFilter s = tasks s) /\
  sublist (filteredTasks tza dateParse now taskFilter s) (tasks s) /\
  Permutation (tasksPage tza dateParse sort now taskFilter s)
    (filteredTasks tza dateParse now taskFilter s).
Proof.
  split.
  { cbn. apply (length_filter_split (fun t => Task.completed t)). }
  split.
  { intros k. cbn. now rewrite List.filter_In, negb_true_iff. }
  split.
  { intros k. cbn. now rewrite List.filter_In. }
  split.
  { intros k. cbn. rewrite !List.filter_In, andb_true_iff. unfold dueIs.
    rewrite String.eqb_eq. tauto. }
  split.
  { intros H1 H2 H3. unfold filteredTasks.
    apply String.eqb_neq in H1, H2, H3. now rewrite H1, H2, H3. }
  split.
  { unfold filteredTasks.
    repeat match goal with
           | |- context [if ?b then _ else _] => destruct b
           end; try apply filter_sublist. reflexivity. }
  apply sort_permutes.
Qed.


(** X16. The dashboard shows at most five upcoming tasks, all of them
    active tasks of the state, and all the active tasks when there are
    five or fewer. *)
Theorem upcomingTasks_bound (s : State) :
  length (upcomingTasks dateParse sort s) <= 5 /\
  (forall k, In k (upcomingTasks dateParse sort s) ->
             In k (tasks s) /\ Task.completed k = false) /\
  (length (List.filter (fun t => negb (Task.completed t)) (tasks s)) <= 5 ->
   Permutation (upcomingTasks dateParse sort s)
     (List.filter (fun t => negb (Task.completed t)) (tasks s))).
Proof.
  unfold upcomingTasks, slice_first. split; [|split].
  - rewrite length_take. lia.
  - intros k Hk. apply list_elem_of_In, elem_of_take in Hk
      as [i [Hk _]].
    apply list_elem_of_lookup_2, list_elem_of_In in Hk.
    apply (Permutation_in _ (sort_permutes _ _)) in Hk.
    apply List.filter_In in Hk. now rewrite negb_true_iff in Hk.
  - intros H. rewrite take_ge; [apply sort_permutes|].
    now rewrite (Permutation_length (sort_permutes _ _)).
Qed.

End TaskLists.

Lemma identity_sort_permutes :
  forall (cmp : Task.t -> Task.t -> option Z) (l : list Task.t),
    Permutation ((fun _ l => l) cmp l) l.
Proof. intros cmp l. reflexivity. Qed.

Lemma filteredTasks_tabs_witness :
  (forall (cmp : Task.t -> Task.t -> option Z) (l : list Task.t),
     Permutation ((fun _ l => l) cmp l) l) /\
  "all" <> "active" /\ "all" <> "completed" /\ "all" <> "today" /\
  filteredTasks sample_tza sample_dateParse 1700000000000 "all" tasks_state
  = tasks tasks_state.
Proof.
  split; [exact identity_sort_permutes|].
  split; [discriminate|]. split; [discriminate|]. split; [discriminate|].
  apply (proj1 (proj2 (proj2 (proj2 (proj2
    (filteredTasks_tabs sample_tza sample_dateParse (fun _ l => l)
       identity_sort_permutes 1700000000000 "all" tasks_state))))));
    discriminate.
Defined.

Lemma upcomingTasks_bound_witness :
  (forall (cmp : Task.t -> Task.t -> option Z) (l : list Task.t),
     Permutation ((fun _ l => l) cmp l) l) /\
  length (upcomingTasks sample_dateParse (fun _ l => l) tasks_state) <= 5.
Proof.
  split; [exact identity_sort_permutes|].
  exact (proj1 (upcomingTasks_bound sample_dateParse (fun _ l => l)
                  identity_sort_permutes tasks_state)).
Defined.

(** ** Shared arrays *)

Section SharedFacts.
Context {A : Type}.
Implicit Types (w : Shared.World (A := A)) (x : A) (k : string).

Lemma clearData_props w :
  Shared.props (Shared.state (Shared.clearData w)) (Shared.clearData w)
  = Shared.props (Shared.defaultData w) w /\
  Shared.cells (Shared.clearData w) = Shared.cells w /\
  Shared.state (Shared.clearData w) = Shared.next w.
Proof.
  unfold Shared.clearData, Shared.assign_spread, Shared.props. simpl.
  now rewrite lookup_insert_eq.
Qed.

Lemma read_clearData k w :
  Shared.read k (Shared.clearData w) = Shared.readDefault k w.
Proof.
  unfold Shared.read, Shared.readDefault.
  destruct (clearData_props w) as [-> [-> _]]. reflexivity.
Qed.

(** X17. Clearing does not empty a collection whose array [state]
    shares with [defaultData].  After a start without stored data,
    [state] is the object [defaultData], so every collection is shared:
    a record pushed into one is in [defaultData] too and is still there
    after 'clear'.  In general a push through a shared property shows up
    in [defaultData] and survives 'clear', while a push through a
    property that [state] got from the stored document does not touch
    [defaultData] and is gone after 'clear'.  While [state] is the object
    [defaultData], the assignment of a filtered array changes
    [defaultData] as well. *)
Theorem clear_keeps_shared_arrays w k x (w1 : Shared.World (A := A)) :
  (Shared.state (Shared.loadData None w) = Shared.defaultData w /\
   forall k', Shared.read k' (Shared.loadData None w)
              = Shared.readDefault k' w) /\
  (Shared.props (Shared.state w) w !! k
     = Shared.props (Shared.defaultData w) w !! k ->
   Shared.push k x w = Some w1 ->
   Shared.read k (Shared.clearData w1)
     = (fun l => l ++ [x]) <$> Shared.read k w /\
   Shared.readDefault k w1 = (fun l => l ++ [x]) <$> Shared.read k w) /\
  (forall a d : nat,
     Shared.props (Shared.state w) w !! k = Some a ->
     Shared.props (Shared.defaultData w) w !! k = Some d ->
     a <> d ->
     Shared.push k x w = Some w1 ->
     Shared.readDefault k w1 = Shared.readDefault k w /\
     Shared.read k (Shared.clearData w1) = Shared.readDefault k w) /\
  (forall p : A -> bool,
     Shared.state w = Shared.defaultData w ->
     Shared.assign_filter k p w = Some w1 ->
     Shared.read k w1 = List.filter p <$> Shared.read k w /\
     Shared.readDefault k w1 = List.filter p <$> Shared.read k w) /\
  (Shared.push "inbox" x (Shared.loadData None Shared.boot) = Some w1 ->
   Shared.read "inbox" (Shared.clearData w1) = Some [x]) /\
  (forall stored : list A,
     Shared.push "inbox" x
       (Shared.loadData (Some [("inbox", Shared.Arr stored)]) Shared.boot)
     = Some w1 ->
     Shared.read "inbox" w1 = Some (stored ++ [x]) /\
     Shared.read "inbox" (Shared.clearData w1) = Some []).
Proof.
  split; [split; reflexivity|].
  split.
  { intros Hshare Hpush. rewrite read_clearData.
    unfold Shared.push in Hpush. unfold Shared.read.
    destruct (Shared.props (Shared.state w) w !! k) as [a|] eqn:Ea;
      [|discriminate].
    destruct (Shared.cells w !! a) as [[l|v]|] eqn:Ec; try discriminate.
    injection Hpush as <-. unfold Shared.readDefault, Shared.props in *.
    simpl. rewrite <- Hshare. rewrite lookup_insert_eq. auto. }
  split.
  { intros a d Ha Hd Hne Hpush. rewrite read_clearData.
    unfold Shared.push in Hpush. rewrite Ha in Hpush.
    destruct (Shared.cells w !! a) as [[l|v]|] eqn:Ec; try discriminate.
    injection Hpush as <-. unfold Shared.readDefault, Shared.props in *.
    simpl. rewrite Hd. rewrite lookup_insert_ne by exact Hne. auto. }
  split.
  { intros p Hsame Hfilter. unfold Shared.assign_filter in Hfilter.
    destruct (Shared.props (Shared.state w) w !! k) as [a|] eqn:Ea;
      [|discriminate].
    destruct (Shared.cells w !! a) as [[l|v]|] eqn:Ec; try discriminate.
    injection Hfilter as <-.
    unfold Shared.read, Shared.readDefault, Shared.props in *.
    simpl. rewrite <- Hsame. rewrite !lookup_insert_eq. simpl.
    rewrite !lookup_insert_eq, Ea, Ec. auto. }
  split.
  { intros Hpush. rewrite read_clearData.
    injection Hpush as <-. reflexivity. }
  intros stored Hpush. rewrite read_clearData.
  injection Hpush as <-. split; reflexivity.
Qed.

End SharedFacts.

Lemma clear_keeps_shared_arrays_witness :
  Shared.push "inbox" sample_item (Shared.loadData None (Shared.boot (A := InboxItem.t)))
  = Some (Shared.mkWorld
            (<[0 := Shared.Arr [sample_item]]> (Shared.cells (Shared.boot (A := InboxItem.t))))
            (Shared.objects (Shared.boot (A := InboxItem.t))) 7 6 6) /\
  Shared.read "inbox"
    (Shared.clearData
       (Shared.mkWorld
          (<[0 := Shared.Arr [sample_item]]> (Shared.cells (Shared.boot (A := InboxItem.t))))
          (Shared.objects (Shared.boot (A := InboxItem.t))) 7 6 6))
  = Some [sample_item].
Proof.
  split; [reflexivity|].
  exact (proj1 (proj2 (proj2 (proj2 (proj2
    (clear_keeps_shared_arrays (Shared.loadData None (Shared.boot (A := InboxItem.t))) "inbox"
       sample_item _))))) eq_refl).
Defined.

(** ** Saving and loading *)

Section SaveLoad.
Context {number : Type}.
Variable parse : string -> option (json number).
Variable stringify : gmap string (json number) -> string.
(** [JSON.parse('')] throws. *)
Hypothesis parse_empty : parse "" = None.

Local Abbreviation object := (gmap string (json number)).

Lemma union_complete (data d : object) :
  (forall k, is_Some (d !! k) -> is_Some (data !! k)) -> data ∪ d = data.
Proof.
  intros H. apply map_eq. intros k.
  destruct (data !! k) as [x|] eqn:E.
  - now apply lookup_union_Some_l.
  - rewrite lookup_union_r by exact E.
    destruct (d !! k) as [y|] eqn:Ed; [|reflexivity].
    destruct (H k) as [z Hz]; [eauto|]. congruence.
Qed.

(** X18. What [saveData] has written, [loadData] reads back: when
    [JSON.parse] gives back the object that [JSON.stringify] was given,
    loading after a save yields the saved state over the defaults, which
    is the saved state itself when it has every key of the defaults, as
    every state that [loadData] or the import handler produced has.  When
    the write fails the key keeps its value and loading yields what it
    yielded before. *)
Theorem save_then_load (data : object) (storage : option string)
    (stored : getItem_result) (renders : object -> bool)
    (state : object) (content : string) :
  (forall st : object,
     Storage.getItem (Storage.saveData stringify true st storage)
     = Storage.getItem storage) /\
  (parse (stringify data) = Some (JObject data) ->
   (Store.loadData parse
      (Storage.getItem (Storage.saveData stringify false data storage))).1
   = data ∪ Store.defaultData /\
   ((forall k, is_Some (Store.defaultData (number := number) !! k) ->
               is_Some (data !! k)) ->
    (Store.loadData parse
       (Storage.getItem (Storage.saveData stringify false data storage))).1
    = data)) /\
  (parse (stringify (Store.loadData parse stored).1)
   = Some (JObject (Store.loadData parse stored).1) ->
   (Store.loadData parse
      (Storage.getItem
         (Storage.saveData stringify false (Store.loadData parse stored).1
            storage))).1
   = (Store.loadData parse stored).1) /\
  (parse (stringify
            (Store.importOnLoad parse renders Store.defaultData state
               content).1)
   = Some (JObject
             (Store.importOnLoad parse renders Store.defaultData state
                content).1) ->
   (forall k, is_Some (Store.defaultData (number := number) !! k) ->
              is_Some (state !! k)) ->
   (Store.loadData parse
      (Storage.getItem
         (Storage.saveData stringify false
            (Store.importOnLoad parse renders Store.defaultData state
               content).1 storage))).1
   = (Store.importOnLoad parse renders Store.defaultData state content).1).
Proof.
  assert (Hload : forall d : object,
            parse (stringify d) = Some (JObject d) ->
            (Store.loadData parse
               (Storage.getItem (Storage.saveData stringify false d storage))).1
            = d ∪ Store.defaultData).
  { intros d Hd. unfold Storage.saveData, Storage.getItem, Store.loadData.
    rewrite (truthy_true _ (parsed_nonempty parse parse_empty _ _ Hd)), Hd.
    reflexivity. }
  split; [reflexivity|]. split; [|split].
  - intros Hd. split; [now apply Hload|].
    intros Hc. rewrite (Hload data Hd). now apply union_complete.
  - intros Hd. rewrite (Hload _ Hd). apply union_complete.
    intros k Hk.
    destruct (loadData_cases parse stored) as [-> | [s0 [v [_ [_ ->]]]]];
      [exact Hk | now apply spread_complete].
  - intros Hd Hstate. rewrite (Hload _ Hd). apply union_complete.
    intros k Hk. unfold Store.importOnLoad.
    destruct (parse content) as [v|]; cbn [fst]; [|now apply Hstate].
    now apply spread_complete.
Qed.

End SaveLoad.

Lemma save_then_load_witness :
  sample_parse "" = None /\
  sample_parse (sample_stringify theme_object) = Some (JObject theme_object) /\
  (Store.loadData sample_parse
     (Storage.getItem
        (Storage.saveData sample_stringify false theme_object None))).1
  = theme_object ∪ Store.defaultData.
Proof.
  split; [reflexivity|]. split; [reflexivity|].
  exact (proj1 (proj1 (proj2
    (save_then_load sample_parse sample_stringify sample_parse_empty
       theme_object None GetNull (fun _ => true) ∅ "")) eq_refl)).
Defined.

(** ** Import: an error after the state is replaced *)

Section ImportEdge.
Context {number : Type}.
Variable parse : string -> option (json number).
Local Abbreviation object := (gmap string (json number)).

(** X19. The toast ['Invalid file format'] of the import does not tell
    that the state was kept.  It appears when the file is no JSON, and
    then the state is kept and nothing is saved; it also appears when the
    file is JSON and the dashboard fails to render the new state, and
    then the state has been replaced and saved before.  Whenever the
    handler saves, it saves the new state. *)
Theorem import_error_after_replace (renders : object -> bool)
    (defaults state : object) (content : string) :
  (In (ShowToast InvalidFileFormat error)
      (Store.importOnLoad parse renders defaults state content).2
   <-> parse content = None \/
       exists data, parse content = Some data /\
                    renders (Store.spread defaults data) = false) /\
  (forall data : json number,
     parse content = Some data ->
     renders (Store.spread defaults data) = false ->
     Store.importOnLoad parse renders defaults state content
     = (Store.spread defaults data,
        [SaveData (Store.spread defaults data); NavigateTo "dashboard";
         ShowToast InvalidFileFormat error])) /\
  (forall saved : object,
     In (SaveData saved)
        (Store.importOnLoad parse renders defaults state content).2 ->
     saved = (Store.importOnLoad parse renders defaults state content).1 /\
     exists data, parse content = Some data /\
                  saved = Store.spread defaults data).
Proof.
  unfold Store.importOnLoad.
  destruct (parse content) as [data|] eqn:E; cbn [fst snd].
  - split; [|split].
    + split.
      * intros [H | [H | [H | []]]]; try discriminate.
        right. exists data. split; [reflexivity|].
        destruct (renders (Store.spread defaults data)); [discriminate|].
        reflexivity.
      * intros [H | [d [[= <-] Hd]]]; [discriminate|].
        rewrite Hd. right. right. now left.
    + intros d [= <-] Hd. now rewrite Hd.
    + intros saved [[= <-] | [H | [H | []]]]; try discriminate.
      * split; [reflexivity|]. eauto.
      * destruct (renders _); discriminate.
  - split; [|split].
    + split; [now left | intros _; now left].
    + intros d H. discriminate.
    + intros saved [H | []]. discriminate.
Qed.

End ImportEdge.

Lemma import_error_after_replace_witness :
  sample_parse "null" = Some JNull /\
  (fun _ : gmap string (json Z) => false)
    (Store.spread Store.defaultData JNull) = false /\
  Store.importOnLoad sample_parse (fun _ => false) Store.defaultData
    (list_to_map [("inbox", JArray [JString "kept"])]) "null"
  = (Store.spread Store.defaultData JNull,
     [SaveData (Store.spread Store.defaultData JNull); NavigateTo "dashboard";
      ShowToast InvalidFileFormat error]).
Proof.
  split; [reflexivity|]. split; [reflexivity|].
  exact (proj1 (proj2
    (import_error_after_replace sample_parse (fun _ => false)
       Store.defaultData (list_to_map [("inbox", JArray [JString "kept"])])
       "null")) JNull eq_refl eq_refl).
Defined.

(** ** Generated ids: distinct at distinct readings of the clock *)

Lemma length_toString36_aux (d fuel : nat) (n : N) :
  (36 ^ N.of_nat d <= n < 36 ^ N.of_nat (S d))%N ->
  (n < 2 ^ N.of_nat fuel)%N ->
  String.length (Js.toString36_aux (S fuel) n EmptyString) = S d.
Proof.
  revert fuel n. induction d as [|d IH]; intros fuel n [Hlo Hhi] Hfuel.
  - rewrite toString36_aux_S.
    change (36 ^ N.of_nat 1)%N with 36%N in Hhi.
    rewrite N.div_small by exact Hhi. reflexivity.
  - rewrite Nat2N.inj_succ, N.pow_succ_r' in Hlo.
    rewrite (Nat2N.inj_succ (S d)), N.pow_succ_r' in Hhi.
    assert (H36 : (36 <= n)%N).
    { pose proof (N.pow_nonzero 36 (N.of_nat d)). lia. }
    destruct fuel as [|fuel].
    { simpl in Hfuel. lia. }
    rewrite toString36_aux_S.
    assert (Hq : (36 ^ N.of_nat d <= n / 36)%N)
      by (apply N.div_le_lower_bound; lia).
    assert (E : (n / 36 =? 0)%N = false).
    { apply N.eqb_neq. pose proof (N.pow_nonzero 36 (N.of_nat d)). lia. }
    rewrite E, toString36_aux_acc, length_append.
    rewrite (IH fuel (n / 36)%N).
    + simpl. lia.
    + split; [exact Hq|]. now apply N.Div0.div_lt_upper_bound.
    + apply N.Div0.div_lt_upper_bound.
      rewrite Nat2N.inj_succ, N.pow_succ_r' in Hfuel. lia.
Qed.

Lemma length_toString36 (d : nat) (n : N) :
  (36 ^ N.of_nat d <= n < 36 ^ N.of_nat (S d))%N ->
  String.length (Js.toString36 n) = S d.
Proof.
  intros H. unfold Js.toString36. apply length_toString36_aux; [exact H|].
  rewrite N2Nat.id. apply N.size_gt.
Qed.

Lemma toString36_nonempty (n : N) : Js.toString36 n <> "".
Proof.
  unfold Js.toString36. rewrite toString36_aux_S.
  destruct (n / 36 =? 0)%N; [discriminate|].
  rewrite toString36_aux_acc.
  destruct (Js.toString36_aux _ _ _); discriminate.
Qed.

(** X20. The digits that [generateId] takes from the clock denote the
    clock: [parseInt] in base 36 gives it back.  So two ids made at
    different readings of the clock differ when the readings have as many
    digits, and they have eight digits each from June 1972 to May 2059.
    An id is never empty. *)
Theorem generateId_distinct (e0 e : Env) :
  Js.parseInt36 (Js.toString36 (clock e)) = clock e /\
  generateId e <> "" /\
  ((78364164096 <= clock e < 2821109907456)%N ->
   String.length (Js.toString36 (clock e)) = 8) /\
  ((78364164096 <= clock e0 < 2821109907456)%N ->
   (78364164096 <= clock e < 2821109907456)%N ->
   clock e0 <> clock e -> generateId e0 <> generateId e) /\
  (String.length (Js.toString36 (clock e0))
   = String.length (Js.toString36 (clock e)) ->
   clock e0 <> clock e -> generateId e0 <> generateId e).
Proof.
  assert (H8 : forall n, (78364164096 <= n < 2821109907456)%N ->
                         String.length (Js.toString36 n) = 8).
  { intros n Hn. apply (length_toString36 7). exact Hn. }
  split; [apply parseInt36_toString36|]. split.
  { unfold generateId. pose proof (toString36_nonempty (clock e)) as H.
    destruct (Js.toString36 (clock e)); [congruence | discriminate]. }
  split; [apply H8|]. split.
  - intros H0 H1 Hne. apply generateId_fresh; [congruence|].
    now rewrite (H8 _ H0), (H8 _ H1).
  - intros Hlen Hne. apply generateId_fresh; [congruence | now symmetry].
Qed.

Lemma generateId_distinct_witness :
  (78364164096 <= clock sample_env < 2821109907456)%N /\
  (78364164096 <= clock (mkEnv 1700000000001 "0.4fzyo82mvyr" "")
   < 2821109907456)%N /\
  clock sample_env <> clock (mkEnv 1700000000001 "0.4fzyo82mvyr" "") /\
  generateId sample_env <> generateId (mkEnv 1700000000001 "0.4fzyo82mvyr" "").
Proof.
  assert (H0 : (78364164096 <= clock sample_env < 2821109907456)%N)
    by (simpl; lia).
  assert (H1 : (78364164096 <= clock (mkEnv 1700000000001 "0.4fzyo82mvyr" "")
                < 2821109907456)%N) by (simpl; lia).
  assert (H2 : clock sample_env
               <> clock (mkEnv 1700000000001 "0.4fzyo82mvyr" ""))
    by (simpl; lia).
  split; [exact H0|]. split; [exact H1|]. split; [exact H2|].
  exact (proj1 (proj2 (proj2 (proj2
    (generateId_distinct sample_env
       (mkEnv 1700000000001 "0.4fzyo82mvyr" "")))))
    H0 H1 H2).
Defined.

Lemma deleteTask_deleteIdea_remove_witness :
  In done_task (tasks tasks_state) /\ Task.id done_task <> "zzz" /\
  In done_task (tasks (deleteTask "zzz" tasks_state).1).
Proof.
  assert (H1 : In done_task (tasks tasks_state)) by (now left).
  assert (H2 : Task.id done_task <> "zzz") by discriminate.
  split; [exact H1|]. split; [exact H2|].
  exact (proj2 (proj1 (deleteTask_deleteIdea_remove "zzz" tasks_state)
                  done_task) (conj H1 H2)).
Defined.

